(** * DataProcessor: chunked, retried and fanned-out data retrieval

    A shallow embedding of [src/data_processor.py] (class [DataProcessor]) and
    of the part of [src/Parallel_Programming.py] that sets its arguments and
    calls it ([main_menu], [select_algorithm], [execute]).

    Python values are modelled as follows.
    - [int] is [Z]; [len] of a list is [Z.of_nat (length _)].
    - A universe and a field list are lists of strings (the [str] alternative
      of [Union[str, list]] is not modelled); [parameters] is an association
      list.
    - A [pandas.DataFrame] is the list of its rows; column labels and the
      index are not modelled ([ignore_index=True] renumbers the rows).
    - A call either returns a value or raises an exception; only exceptions
      derived from [Exception] are modelled.
    - Console output, [time.sleep] and the calls into the data library are
      recorded as events, in program order. *)

From Stdlib Require Import String ZArith Lia Bool Arith List.
Import ListNotations.
Open Scope string_scope.
Open Scope list_scope.
Open Scope Z_scope.

Set Implicit Arguments.

(** ** Python built-ins used by the partitioner *)

Module Py.

(** [len(items)] *)
Definition len {A} (items : list A) : Z := Z.of_nat (length items).

(** [math.ceil(a / b)] for [b <> 0].  The quotient is a float in Python;
    it is exact, and so is its ceiling, for operands below 2^53, which
    every list length is in practice.  [Z.div] rounds towards minus
    infinity, hence the two negations. *)
Definition ceil_div (a b : Z) : Z := - ((- a) / b).

(** [range(0, stop, step)] for [step > 0]: 0, step, 2*step, ... below
    [stop]; it has ceil(stop / step) elements. *)
Definition range_step (stop step : nat) : list nat :=
  map (fun k => (k * step)%nat) (seq 0 ((stop + step - 1) / step)%nat).

(** [items[i:j]] for [0 <= i <= j]; the slice is cut at the end of the
    list. *)
Definition slice {A} (items : list A) (i j : nat) : list A :=
  firstn (j - i) (skipn i items).

End Py.

(** ** ChunkPartitioner: [DataProcessor.__split_list_into_chunks] *)

(** [n = max(1, nb_chunks)]
    [list(items[i:i+n] for i in range(0, len(items), n))] *)
Definition __split_list_into_chunks {A} (items : list A) (nb_chunks : Z)
  : list (list A) :=
  let n := Z.to_nat (Z.max 1 nb_chunks) in
  map (fun i => Py.slice items i (i + n)) (Py.range_step (length items) n).

(** ** Data model *)

Definition Universe := list string.
Definition FieldSet := list string.

(** [parameters]: a dict of request parameters; [{}] is the default. *)
Definition Parameters := list (string * string).

(** One row of a result table: the instrument and one cell per field. *)
Record Row := mkRow { Instrument : string; cells : list string }.

(** A [pandas.DataFrame]; [pd.DataFrame()] is the table without rows. *)
Definition DataFrame := list Row.
Definition pd_DataFrame : DataFrame := [].

(** Exceptions (all derived from [Exception]). *)
Inductive Exn : Type :=
| ValueError (msg : string)     (* raised by the executors and by pandas *)
| OverflowError (msg : string)  (* raised by the process pool, see [Platform] *)
| RDError (msg : string).       (* anything raised by the data library *)

(** [class Algorithm(Enum)] of the harness. *)
Inductive Algorithm : Type := NATIVE | THREAD | PROCESS | HYBRID.

(** What the program prints, by source line of [data_processor.py]; the
    last two are printed by [execute]. *)
Inductive Msg : Type :=
| BatchRequested (size : Z)                       (* line 55 *)
| RequestFailed (ex : Exn) (remaining : Z)        (* line 63 *)
| InternalException (ex : Exn)                    (* line 72 *)
| SendingBatches (max_size : Z) (nb_loop : Z)     (* line 97 *)
| ThreadPoolException (ex : Exn)                  (* line 106 *)
| LaunchingProcesses (nb_loop : Z)                (* lines 134, 171 *)
| ProcessPoolException (ex : Exn)                 (* lines 144, 182 *)
| Launching (algorithm : Algorithm)
| ExecutionFinished (algorithm : Algorithm).

(** Observable actions, recorded in program order. *)
Inductive Event : Type :=
| EvPrint (m : Msg)
| EvSleep (milliseconds : Z)                      (* time.sleep *)
| EvSetParam (key : string) (value : Z)           (* config.set_param *)
| EvOpenSession (raised : option Exn)             (* rd.open_session *)
| EvCloseSession (raised : option Exn)            (* rd.close_session *)
| EvGetData (universe : Universe) (fields : FieldSet)
            (parameters : Parameters) (outcome : Exn + DataFrame)
| EvThreadPool (max_workers : Z)                  (* ThreadPoolExecutor(...) *)
| EvProcessPool (max_workers : Z)                 (* ProcessPoolExecutor(...) *)
| EvThreadMap (tasks : list Universe)             (* executor.map on threads *)
| EvProcessMap (tasks : list Universe).           (* executor.map on processes *)

(** The data library [rd], the external collaborator.  It is a state machine
    of its own: what a request answers may depend on everything asked
    before.  Its state stands for the remote service together with what the
    library holds in every process of the run. *)
Record Backend (B : Type) : Type := mkBackend {
  rd_get_data : Universe -> FieldSet -> Parameters -> B -> (Exn + DataFrame) * B;
  rd_open_session : B -> option Exn * B;
  rd_close_session : B -> option Exn * B
}.

(** What the interpreter and the operating system decide. *)
Record Platform : Type := mkPlatform {
  (** [executor._max_workers] of [ThreadPoolExecutor(max_workers=None)]:
      derived from the number of processors, always positive. *)
  thread_max_workers : positive;
  (** The largest [max_workers] a [ProcessPoolExecutor] can be made with:
      61 on Windows; elsewhere what a semaphore can count, less the one
      extra call that the pool queues, 2147483646 on Linux. *)
  process_max_workers_limit : Z;
  (** What the constructor raises above it: [ValueError] on Windows,
      [OverflowError] on Linux. *)
  process_max_workers_error : Exn
}.

(** ** Effects: state of the backend, events, exceptions *)

Section Effects.

Variable B : Type.

(** A computation runs from a backend state to a returned value or a
    raised exception, a new backend state and the events it caused. *)
Definition M (A : Type) : Type := B -> (Exn + A) * B * list Event.

Definition ret {A} (a : A) : M A := fun s => (inr a, s, []).

Definition raise {A} (ex : Exn) : M A := fun s => (inl ex, s, []).

Definition bind {A C} (m : M A) (k : A -> M C) : M C :=
  fun s =>
    let '(r, s1, e1) := m s in
    match r with
    | inl ex => (inl ex, s1, e1)
    | inr a => let '(r2, s2, e2) := k a s1 in (r2, s2, e1 ++ e2)
    end.

(** [try: m  except Exception as ex: handler ex] *)
Definition try_except {A} (m : M A) (handler : Exn -> M A) : M A :=
  fun s =>
    let '(r, s1, e1) := m s in
    match r with
    | inl ex => let '(r2, s2, e2) := handler ex s1 in (r2, s2, e1 ++ e2)
    | inr a => (inr a, s1, e1)
    end.

(** Runs [m] and hands back how it ended instead of raising. *)
Definition attempt {A} (m : M A) : M (Exn + A) :=
  fun s => let '(r, s1, e1) := m s in (inr r, s1, e1).

Definition emit (ev : Event) : M unit := fun s => (inr tt, s, [ev]).

Definition when (b : bool) (m : M unit) : M unit := if b then m else ret tt.

Definition result_of {A} (o : (Exn + A) * B * list Event) : Exn + A := fst (fst o).
Definition state_of {A} (o : (Exn + A) * B * list Event) : B := snd (fst o).
Definition events_of {A} (o : (Exn + A) * B * list Event) : list Event := snd o.

End Effects.

Arguments ret {B A} a _.
Arguments raise {B A} ex _.
Arguments emit {B} ev _.
Arguments bind {B A C} m k _ : simpl never.
Arguments try_except {B A} m handler _ : simpl never.
Arguments attempt {B A} m _ : simpl never.

Declare Scope py_scope.
Delimit Scope py_scope with py.
Notation "x <- m ;; k" := (bind m (fun x => k))
  (at level 100, m at next level, right associativity) : py_scope.
Notation "m ;; k" := (bind m (fun _ => k))
  (at level 100, right associativity) : py_scope.
Open Scope py_scope.

(** ** Library calls *)

Section Library.

Variable B : Type.
Variable rd : Backend B.
Variable platform : Platform.

Definition print (m : Msg) : M B unit := emit (EvPrint m).

(** [time.sleep(seconds)], the argument given in milliseconds. *)
Definition time_sleep (milliseconds : Z) : M B unit := emit (EvSleep milliseconds).

(** [rd.get_data(universe, fields, parameters)] *)
Definition get_data (universe : Universe) (fields : FieldSet)
           (parameters : Parameters) : M B DataFrame :=
  fun s =>
    let '(r, s') := rd_get_data rd universe fields parameters s in
    (r, s', [EvGetData universe fields parameters r]).

(** [rd.open_session()] *)
Definition open_session : M B unit :=
  fun s =>
    let '(r, s') := rd_open_session rd s in
    (match r with Some ex => inl ex | None => inr tt end, s', [EvOpenSession r]).

(** [rd.close_session()] *)
Definition close_session : M B unit :=
  fun s =>
    let '(r, s') := rd_close_session rd s in
    (match r with Some ex => inl ex | None => inr tt end, s', [EvCloseSession r]).

(** [ThreadPoolExecutor(max_workers = None)]; the value is
    [executor._max_workers]. *)
Definition ThreadPoolExecutor : M B Z :=
  let max_workers := Z.pos (thread_max_workers platform) in
  emit (EvThreadPool max_workers) ;; ret max_workers.

(** [ProcessPoolExecutor(max_workers = nb_workers)] for an integer
    [nb_workers]; the value is [executor._max_workers].  The constructor
    refuses a count that is not positive, and fails on one above the
    platform's limit. *)
Definition ProcessPoolExecutor (max_workers : Z) : M B Z :=
  if max_workers <=? 0 then
    raise (ValueError "max_workers must be greater than 0")
  else if process_max_workers_limit platform <? max_workers then
    raise (process_max_workers_error platform)
  else
    emit (EvProcessPool max_workers) ;; ret max_workers.

(** [executor.map(fn, tasks...)]: every task is submitted at once and the
    results are yielded in submission order, whatever the order in which
    the workers finish.  The workers run concurrently; the model runs the
    tasks one after the other in submission order, each to its end, and
    keeps how each one ended: a task that raises does not stop the others,
    its exception is raised again when its result is reached.  For a
    backend whose answers do not depend on its state every schedule gives
    the same results. *)
Fixpoint executor_map {T A} (fn : T -> M B A) (tasks : list T)
  : M B (list (Exn + A)) :=
  match tasks with
  | [] => ret []
  | task :: rest =>
      r <- attempt (fn task) ;;
      rs <- executor_map fn rest ;;
      ret (r :: rs)
  end.

End Library.

(** [pd.concat(objs, ignore_index=True)]: the rows of the tables in order;
    a [None] among [objs] is dropped silently, unless all of them are. *)
Definition pd_concat (objs : list (option DataFrame)) : Exn + DataFrame :=
  if forallb (fun o => match o with None => true | Some _ => false end) objs
  then inl (ValueError "All objects passed were None")
  else inr (concat (map (fun o => match o with Some df => df | None => [] end) objs)).

(** The loop shared by the three fan-out methods,
    [for result in executor.map(...): output_df = pd.concat([output_df, result], ignore_index=True)]
    inside [try: ... except Exception as e: print(...)].  Reaching the result
    of a task that raised re-raises its exception, which ends the loop.  The
    value is [output_df] when the loop is left, and the exception caught, if
    any. *)
Fixpoint for_result_in (results : list (Exn + option DataFrame))
         (output_df : DataFrame) : DataFrame * option Exn :=
  match results with
  | [] => (output_df, None)
  | inl ex :: _ => (output_df, Some ex)
  | inr result :: rest =>
      match pd_concat [Some output_df; result] with
      | inl ex => (output_df, Some ex)
      | inr df => for_result_in rest df
      end
  end.

(** ** DataProcessor *)

Module DataProcessor.
Section Methods.

Variable B : Type.
Variable rd : Backend B.
Variable platform : Platform.

Definition NB_ITEMS_THRESHOLD : Z := 800.
Definition CHILD_PROCESSES : Z := 2.

(** [close] *)
Definition close : M B unit := close_session rd.

(** [__open_session] *)
Definition __open_session : M B unit :=
  emit (EvSetParam "http.request-timeout" 120) ;;
  open_session rd.

(** The loop of [internal_get_data],
    [while (succeed is False and nb_relaunch_request > 0)].  A successful
    request sets [succeed], which ends the loop with the table received; a
    failed one costs one unit of [nb_relaunch_request], sleeps 0.2 seconds
    and prints the exception. *)
Fixpoint while_not_succeeded (universe : Universe) (fields : FieldSet)
         (parameters : Parameters) (nb_relaunch_request : nat)
         (res : DataFrame) : M B DataFrame :=
  match nb_relaunch_request with
  | O => ret res
  | S remaining =>
      r <- attempt (get_data rd universe fields parameters) ;;
      match r with
      | inr table => ret table
      | inl ex =>
          time_sleep 200 ;;
          print (RequestFailed ex (Z.of_nat remaining)) ;;
          while_not_succeeded universe fields parameters remaining res
      end
  end.

(** [internal_get_data(universe, fields, parameters, open_the_session)].
    [None] is what Python returns when the [except] branch of the outer
    [try] ends the call. *)
Definition internal_get_data (universe : Universe) (fields : FieldSet)
           (parameters : Parameters) (open_the_session : bool)
  : M B (option DataFrame) :=
  try_except
    (when open_the_session __open_session ;;
     let res := pd_DataFrame in
     let nb_relaunch_request := 5%nat in
     print (BatchRequested (Py.len universe)) ;;
     res <- while_not_succeeded universe fields parameters nb_relaunch_request res ;;
     when open_the_session close ;;
     ret (Some res))
    (fun e => print (InternalException e) ;; ret None).

(** [threadPoolExecutor_get_data(universe, fields, parameters,
    nb_items_threshold, open_the_session)] *)
Definition threadPoolExecutor_get_data (universe : Universe) (fields : FieldSet)
           (parameters : Parameters) (nb_items_threshold : Z)
           (open_the_session : bool) : M B DataFrame :=
  when open_the_session __open_session ;;
  let output_df := pd_DataFrame in
  _max_workers <- ThreadPoolExecutor platform ;;
  let best_nb_items_threshold :=
    Z.max (Py.ceil_div (Py.len universe) _max_workers) nb_items_threshold in
  let universe_list := __split_list_into_chunks universe best_nb_items_threshold in
  let nb_loop := Py.len universe_list in
  print (SendingBatches best_nb_items_threshold nb_loop) ;;
  emit (EvThreadMap universe_list) ;;
  results <- executor_map
               (fun chunk => internal_get_data chunk fields parameters false)
               universe_list ;;
  let '(output_df, raised) := for_result_in results output_df in
  match raised with
  | Some e => print (ThreadPoolException e)
  | None => ret tt
  end ;;
  when open_the_session close ;;
  ret output_df.

(** [processPoolExecutor_get_data(universe, fields, parameters,
    nb_items_threshold, nb_workers)].  The fallback calls
    [internal_get_data(universe=universe, fields=fields)]: [parameters]
    takes its default there. *)
Definition processPoolExecutor_get_data (universe : Universe) (fields : FieldSet)
           (parameters : Parameters) (nb_items_threshold : Z)
           (nb_workers : Z) : M B (option DataFrame) :=
  let output_df := pd_DataFrame in
  _max_workers <- ProcessPoolExecutor platform nb_workers ;;
  let best_nb_items_threshold := Py.ceil_div (Py.len universe) _max_workers in
  let universe_list :=
    __split_list_into_chunks universe (Z.max best_nb_items_threshold nb_items_threshold) in
  let nb_loop := Py.len universe_list in
  if nb_loop <? 2 then
    internal_get_data universe fields [] false
  else
    print (LaunchingProcesses nb_loop) ;;
    emit (EvProcessMap universe_list) ;;
    results <- executor_map
                 (fun chunk => internal_get_data chunk fields parameters true)
                 universe_list ;;
    let '(output_df, raised) := for_result_in results output_df in
    match raised with
    | Some e => print (ProcessPoolException e)
    | None => ret tt
    end ;;
    ret (Some output_df).

(** [hybridPoolExecutor_get_data(universe, fields, parameters,
    nb_items_threshold, nb_workers)] *)
Definition hybridPoolExecutor_get_data (universe : Universe) (fields : FieldSet)
           (parameters : Parameters) (nb_items_threshold : Z)
           (nb_workers : Z) : M B DataFrame :=
  let output_df := pd_DataFrame in
  _max_workers <- ProcessPoolExecutor platform nb_workers ;;
  let best_nb_items_threshold := Py.ceil_div (Py.len universe) _max_workers in
  let universe_list :=
    __split_list_into_chunks universe (Z.max best_nb_items_threshold nb_items_threshold) in
  let nb_loop := Py.len universe_list in
  if nb_loop <? 2 then
    threadPoolExecutor_get_data universe fields parameters nb_items_threshold false
  else
    print (LaunchingProcesses nb_loop) ;;
    emit (EvProcessMap universe_list) ;;
    results <- executor_map
                 (fun chunk =>
                    threadPoolExecutor_get_data chunk fields parameters
                                                nb_items_threshold true)
                 universe_list ;;
    let '(output_df, raised) :=
      for_result_in
        (map (fun r => match r with inl ex => inl ex | inr df => inr (Some df) end) results)
        output_df in
    match raised with
    | Some e => print (ProcessPoolException e)
    | None => ret tt
    end ;;
    ret output_df.

End Methods.
End DataProcessor.

(** ** The harness: [Parallel_Programming.py] *)

Module Harness.

(** The globals [algorithm] and [universe] and the locals [batch_size] and
    [child_cnt] of [main_menu]. *)
Record Settings : Type := mkSettings {
  algorithm : Algorithm;
  universe : Universe;
  batch_size : Z;
  child_cnt : Z
}.

Definition DEFAULT_UNIVERSE_SIZE : Z := 7500.

(** The settings when [main_menu] starts, [INSTRUMENTS_LIST] being the
    content of the instruments file. *)
Definition initial (INSTRUMENTS_LIST : Universe) : Settings :=
  mkSettings NATIVE
             (firstn (Z.to_nat DEFAULT_UNIVERSE_SIZE) INSTRUMENTS_LIST)
             DataProcessor.NB_ITEMS_THRESHOLD
             DataProcessor.CHILD_PROCESSES.

(** [select_algorithm()], [option] being the number typed; anything else
    keeps the current algorithm. *)
Definition select_algorithm (option : Z) (current : Algorithm) : Algorithm :=
  if option =? 1 then NATIVE
  else if option =? 2 then THREAD
  else if option =? 3 then PROCESS
  else if option =? 4 then HYBRID
  else current.

(** One turn of [main_menu] for a numeric [option], [num] being the number
    typed next.  A number that is not positive changes nothing; options 3
    and 4 exist only for the algorithms that use the setting. *)
Definition menu_option (INSTRUMENTS_LIST : Universe) (option num : Z)
           (st : Settings) : Settings :=
  if option =? 1 then
    mkSettings (select_algorithm num (algorithm st))
               (universe st) (batch_size st) (child_cnt st)
  else if option =? 2 then
    if num >? 0
    then mkSettings (algorithm st) (firstn (Z.to_nat num) INSTRUMENTS_LIST)
                    (batch_size st) (child_cnt st)
    else st
  else if (option =? 3)
          && match algorithm st with THREAD | HYBRID => true | _ => false end then
    if num >? 0
    then mkSettings (algorithm st) (universe st) num (child_cnt st)
    else st
  else if (option =? 4)
          && match algorithm st with PROCESS | HYBRID => true | _ => false end then
    if num >? 0
    then mkSettings (algorithm st) (universe st) (batch_size st) num
    else st
  else st.

(** The settings after a sequence of turns. *)
Definition main_menu (INSTRUMENTS_LIST : Universe) (inputs : list (Z * Z))
  : Settings :=
  fold_left (fun st input => menu_option INSTRUMENTS_LIST (fst input) (snd input) st)
            inputs (initial INSTRUMENTS_LIST).

Section Execute.

Variable B : Type.
Variable rd : Backend B.
Variable platform : Platform.

(** [execute(processor, batch_size, workers)] with the global [fields].
    The source drops the table; the model returns it.  No call passes
    [parameters]. *)
Definition execute (fields : FieldSet) (st : Settings) : M B (option DataFrame) :=
  print (Launching (algorithm st)) ;;
  df <- match algorithm st with
        | NATIVE =>
            DataProcessor.internal_get_data rd (universe st) fields [] false
        | THREAD =>
            df <- DataProcessor.threadPoolExecutor_get_data
                    rd platform (universe st) fields [] (batch_size st) false ;;
            ret (Some df)
        | PROCESS =>
            DataProcessor.processPoolExecutor_get_data
              rd platform (universe st) fields [] (batch_size st) (child_cnt st)
        | HYBRID =>
            df <- DataProcessor.hybridPoolExecutor_get_data
                    rd platform (universe st) fields [] (batch_size st) (child_cnt st) ;;
            ret (Some df)
        end ;;
  print (ExecutionFinished (algorithm st)) ;;
  ret df.

End Execute.
End Harness.

(** ** Test doubles for the data library, and platforms *)

Module Fake.

(** One row per identifier, one cell per field. *)
Definition row_of (fields : FieldSet) (id : string) : Row :=
  mkRow id (map (fun field => (id ++ "." ++ field)%string) fields).

(** Sessions that always open and close. *)
Definition session_ok {B} (s : B) : option Exn * B := (None, s).

(** Every request fails. *)
Definition always_failing : Backend unit :=
  mkBackend (fun _ _ _ s => (inl (RDError "timeout"), s)) session_ok session_ok.

(** Every request succeeds with one row per identifier. *)
Definition one_row_per_id : Backend unit :=
  mkBackend (fun universe fields _ s => (inr (map (row_of fields) universe), s))
            session_ok session_ok.



(** The state counts the failures still to come: a request fails while
    the count is positive, then requests succeed. *)
Definition flaky : Backend nat :=
  mkBackend
    (fun universe fields _ s =>
       match s with
       | O => (inr (map (row_of fields) universe), O)
       | S s' => (inl (RDError "busy"), s')
       end)
    session_ok session_ok.

(** Requests succeed but no session can be opened. *)
Definition no_session : Backend unit :=
  mkBackend (fun universe fields _ s => (inr (map (row_of fields) universe), s))
            (fun s => (Some (RDError "no desktop application"), s)) session_ok.

(** Eight processors under Linux: [min(32, 8 + 4)] threads; a pool of at
    most 2147483646 processes. *)
Definition posix : Platform :=
  mkPlatform 12 2147483646
             (OverflowError "Python int too large to convert to C int").

(** The same machine under Windows. *)
Definition windows : Platform :=
  mkPlatform 12 61 (ValueError "max_workers must be <= 61").

(** One row per identifier, with one cell per field and one per parameter:
    the rows depend on the parameters of the request. *)
Definition row_with (fields : FieldSet) (parameters : Parameters) (id : string) : Row :=
  mkRow id (map (fun field => (id ++ "." ++ field)%string) fields
            ++ map (fun parameter => (fst parameter ++ "=" ++ snd parameter)%string)
                   parameters).

(** Every request succeeds with such rows. *)
Definition honouring_parameters : Backend unit :=
  mkBackend (fun universe fields parameters s =>
               (inr (map (row_with fields parameters) universe), s))
            session_ok session_ok.

(** A universe of [n] instruments. *)
Definition instruments (n : nat) : Universe :=
  map (fun k => String (Ascii.ascii_of_nat (65 + k / 10)) (String (Ascii.ascii_of_nat (48 + k mod 10)) ""))
      (seq 0 n).

End Fake.

Import DataProcessor.

(** ** Vocabulary of the statements *)

Module Spec.

(** ceil(a / b) as the specification words it, for [b > 0]: the quotient,
    and one more when the division leaves a remainder. *)
Definition ceil_quotient (a b : Z) : Z :=
  a / b + (if a mod b =? 0 then 0 else 1).

(** max(minChunkSize, ceil(len(universe) / workerCount)) *)
Definition effective_chunk_size (minChunkSize len workerCount : Z) : Z :=
  Z.max minChunkSize (ceil_quotient len workerCount).

End Spec.

(** A worker count that [ProcessPoolExecutor] accepts on the platform. *)
Definition accepted (platform : Platform) (nb_workers : Z) : bool :=
  (0 <? nb_workers) && (nb_workers <=? process_max_workers_limit platform).

(** The request [(universe, fields, parameters)] fails whenever it is made. *)
Definition request_fails {B} (rd : Backend B) (universe : Universe)
           (fields : FieldSet) (parameters : Parameters) : Prop :=
  forall s, exists ex, fst (rd_get_data rd universe fields parameters s) = inl ex.

(** Every request fails, whenever it is made. *)
Definition always_fails {B} (rd : Backend B) : Prop :=
  forall universe fields parameters, request_fails rd universe fields parameters.

(** The outcome of a request depends on the request alone, not on when it
    is made: [oracle] gives it. *)
Definition answers {B} (rd : Backend B)
           (oracle : Universe -> FieldSet -> Parameters -> Exn + DataFrame) : Prop :=
  forall universe fields parameters s,
    fst (rd_get_data rd universe fields parameters s) = oracle universe fields parameters.

(** Sessions open and close without an exception. *)
Definition sessions_ok {B} (rd : Backend B) : Prop :=
  forall s, fst (rd_open_session rd s) = None /\ fst (rd_close_session rd s) = None.

(** What a chunk contributes to the aggregated table: the rows received,
    or nothing when its request failed. *)
Definition rows_or_nothing (outcome : Exn + DataFrame) : DataFrame :=
  match outcome with inr table => table | inl _ => [] end.

(** What the fan-out methods return when the outcome of every request is
    given by [oracle] and sessions open and close: the chunks' contributions
    in chunk order. *)
Section Expected.

Variable oracle : Universe -> FieldSet -> Parameters -> Exn + DataFrame.
Variable platform : Platform.

Definition chunk_table (fields : FieldSet) (parameters : Parameters)
           (chunk : Universe) : DataFrame :=
  rows_or_nothing (oracle chunk fields parameters).

Definition thread_table (universe : Universe) (fields : FieldSet)
           (parameters : Parameters) (nb_items_threshold : Z) : DataFrame :=
  let workers := Z.pos (thread_max_workers platform) in
  concat (map (chunk_table fields parameters)
              (__split_list_into_chunks
                 universe
                 (Z.max (Py.ceil_div (Py.len universe) workers) nb_items_threshold))).

Definition process_table (universe : Universe) (fields : FieldSet)
           (parameters : Parameters) (nb_items_threshold nb_workers : Z)
  : DataFrame :=
  let chunks :=
    __split_list_into_chunks
      universe
      (Z.max (Py.ceil_div (Py.len universe) nb_workers) nb_items_threshold) in
  if Py.len chunks <? 2 then chunk_table fields [] universe
  else concat (map (chunk_table fields parameters) chunks).

Definition hybrid_table (universe : Universe) (fields : FieldSet)
           (parameters : Parameters) (nb_items_threshold nb_workers : Z)
  : DataFrame :=
  let chunks :=
    __split_list_into_chunks
      universe
      (Z.max (Py.ceil_div (Py.len universe) nb_workers) nb_items_threshold) in
  if Py.len chunks <? 2
  then thread_table universe fields parameters nb_items_threshold
  else concat (map (fun chunk =>
                      thread_table chunk fields parameters nb_items_threshold)
                   chunks).

End Expected.

(** The events of one failed attempt, and of a run of failed attempts that
    starts with [budget] attempts left. *)
Definition failed_attempt (universe : Universe) (fields : FieldSet)
           (parameters : Parameters) (cause : Exn) (remaining : nat) : list Event :=
  [EvGetData universe fields parameters (inl cause);
   EvSleep 200;
   EvPrint (RequestFailed cause (Z.of_nat remaining))].

Fixpoint failed_attempts (universe : Universe) (fields : FieldSet)
         (parameters : Parameters) (causes : list Exn) (budget : nat) : list Event :=
  match causes with
  | [] => []
  | cause :: rest =>
      failed_attempt universe fields parameters cause (budget - 1)
      ++ failed_attempts universe fields parameters rest (budget - 1)
  end.

(** The requests and the pauses among the events. *)
Definition is_request_or_sleep (ev : Event) : bool :=
  match ev with
  | EvGetData _ _ _ _ | EvSleep _ => true
  | _ => false
  end.

Definition requests_and_sleeps (events : list Event) : list Event :=
  filter is_request_or_sleep events.

Definition is_request (ev : Event) : bool :=
  match ev with EvGetData _ _ _ _ => true | _ => false end.

(** How many times the backend was asked. *)
Definition nb_requests (events : list Event) : nat :=
  length (filter is_request events).

(** Work handed to a pool of processes. *)
Definition is_process_dispatch (ev : Event) : bool :=
  match ev with EvProcessMap _ => true | _ => false end.

(** Any event but that. *)
Definition quiet (ev : Event) : Prop := is_process_dispatch ev = false.

Unset Implicit Arguments.

(** ** The start of the harness: [get_universe] and [init] *)

Module Startup.

(** The newline character. *)
Definition newline : Ascii.ascii := Ascii.ascii_of_nat 10.

(** [readedLine.replace('\n', '')]: the line without its newlines. *)
Fixpoint remove_newlines (line : string) : string :=
  match line with
  | EmptyString => EmptyString
  | String c rest =>
      if Ascii.eqb c newline then remove_newlines rest
      else String c (remove_newlines rest)
  end.

(** [if (instrument):] a string is true unless it is empty. *)
Definition truthy (instrument : string) : bool :=
  match instrument with EmptyString => false | String _ _ => true end.

(** [get_universe()].  [file] is the sequence of lines that iterating over
    the instruments file yields, or [None] when the file cannot be opened;
    [INSTRUMENTS_LIST] is the global before the call.  The value is the
    global after the call and the boolean returned.  The messages printed
    are left out. *)
Definition get_universe (file : option (list string)) (INSTRUMENTS_LIST : Universe)
  : Universe * bool :=
  let INSTRUMENTS_LIST :=
    match file with
    | Some lines => INSTRUMENTS_LIST ++ filter truthy (map remove_newlines lines)
    | None => INSTRUMENTS_LIST
    end in
  (INSTRUMENTS_LIST, Py.len INSTRUMENTS_LIST >? 0).

(** [init()], from the initial globals [INSTRUMENTS_LIST = []] and
    [universe = []]: the two globals after the call and the boolean
    returned.  The list of fields is a constant of the source. *)
Definition init (file : option (list string)) : Universe * Universe * bool :=
  let '(INSTRUMENTS_LIST, loaded) := get_universe file [] in
  let universe :=
    if loaded
    then firstn (Z.to_nat Harness.DEFAULT_UNIVERSE_SIZE) INSTRUMENTS_LIST
    else [] in
  (INSTRUMENTS_LIST, universe, Py.len universe >? 0).

End Startup.

Arguments Startup.newline : simpl never.

(** ** Vocabulary of the further properties *)

(** From state [s] the request fails [k] times in a row, then succeeds with
    [table]. *)
Fixpoint fails_then_succeeds {B} (rd : Backend B) (universe : Universe)
         (fields : FieldSet) (parameters : Parameters) (k : nat) (s : B)
         (table : DataFrame) : Prop :=
  match k with
  | O => fst (rd_get_data rd universe fields parameters s) = inr table
  | S k' =>
      (exists ex, fst (rd_get_data rd universe fields parameters s) = inl ex) /\
      fails_then_succeeds rd universe fields parameters k'
                          (snd (rd_get_data rd universe fields parameters s)) table
  end.

(** The state of the backend after [k] requests made from [s]. *)
Fixpoint state_after {B} (rd : Backend B) (universe : Universe)
         (fields : FieldSet) (parameters : Parameters) (k : nat) (s : B) : B :=
  match k with
  | O => s
  | S k' =>
      state_after rd universe fields parameters k'
                  (snd (rd_get_data rd universe fields parameters s))
  end.



(** A session call that raised. *)
Definition session_raised (ev : Event) : bool :=
  match ev with
  | EvOpenSession (Some _) | EvCloseSession (Some _) => true
  | _ => false
  end.

(** An event that is either no request, or a request for one of [chunks]
    with the given fields and parameters. *)
Definition asks_only (chunks : list Universe) (fields : FieldSet)
           (parameters : Parameters) (ev : Event) : Prop :=
  match ev with
  | EvGetData universe fields' parameters' _ =>
      In universe chunks /\ fields' = fields /\ parameters' = parameters
  | _ => True
  end.

(** The algorithms that create a pool of processes. *)
Definition uses_process_pool (algorithm : Algorithm) : bool :=
  match algorithm with PROCESS | HYBRID => true | NATIVE | THREAD => false end.

(** Requests succeed and sessions open, but closing a session raises. *)
Definition closing_fails : Backend unit :=
  mkBackend (fun universe fields _ s => (inr (map (Fake.row_of fields) universe), s))
            Fake.session_ok
            (fun s => (Some (RDError "connection lost"), s)).

(** * Properties *)

(** ** ChunkPartitioner *)

Example split_7_by_3 :
  __split_list_into_chunks ["a"; "b"; "c"; "d"; "e"; "f"; "g"] 3
  = [["a"; "b"; "c"]; ["d"; "e"; "f"]; ["g"]].
Proof. reflexivity. Qed.

Example split_by_a_negative_size :
  __split_list_into_chunks ["a"; "b"; "c"] (-4) = [["a"]; ["b"]; ["c"]].
Proof. reflexivity. Qed.

Example ceil_div_37_by_3 : Py.ceil_div 37 3 = 13.
Proof. reflexivity. Qed.

Example range_step_7_by_3 : Py.range_step 7 3 = [0; 3; 6]%nat.
Proof. reflexivity. Qed.

Section Partition.

Context {A : Type}.
Implicit Types (items : list A) (n i : nat).

Lemma slice_window items i n :
  Py.slice items i (i + n) = firstn n (skipn i items).
Proof.
  unfold Py.slice. f_equal. lia.
Qed.

Lemma range_step_covers stop n :
  (0 < n)%nat -> (stop <= (stop + n - 1) / n * n)%nat.
Proof.
  intros Hn.
  pose proof (Nat.div_mod_eq (stop + n - 1) n) as E.
  pose proof (Nat.mod_upper_bound (stop + n - 1) n ltac:(lia)) as R.
  nia.
Qed.

Lemma range_step_tight stop n :
  (0 < n)%nat -> (0 < stop)%nat -> ((stop + n - 1) / n * n < stop + n)%nat.
Proof.
  intros Hn Hs.
  pose proof (Nat.div_mod_eq (stop + n - 1) n) as E.
  nia.
Qed.

(** Windows of width [n] taken at 0, n, 2n, ... put the list together
    again, once there are enough of them. *)
Lemma concat_windows n :
  (0 < n)%nat ->
  forall count items,
    (length items <= count * n)%nat ->
    concat (map (fun i => firstn n (skipn i items))
                (map (fun k => (k * n)%nat) (seq 0 count))) = items.
Proof.
  intros Hn. induction count as [|count IH]; intros items Hlen.
  - destruct items; [reflexivity | simpl in Hlen; lia].
  - cbn [seq map concat]. rewrite <- seq_shift, !map_map.
    cbn [Nat.mul skipn].
    transitivity (firstn n items ++ skipn n items);
      [f_equal | apply firstn_skipn].
    etransitivity;
      [| apply (IH (skipn n items)); rewrite length_skipn; lia].
    rewrite map_map. f_equal. apply map_ext. intros k.
    rewrite skipn_skipn. do 2 f_equal. lia.
Qed.

Lemma split_as_windows items nb_chunks :
  let n := Z.to_nat (Z.max 1 nb_chunks) in
  __split_list_into_chunks items nb_chunks =
  map (fun i => firstn n (skipn i items))
      (map (fun k => (k * n)%nat) (seq 0 ((length items + n - 1) / n)%nat)).
Proof.
  intros n. unfold __split_list_into_chunks, Py.range_step. fold n.
  apply map_ext. intros i. apply slice_window.
Qed.

Lemma concat_split items nb_chunks :
  concat (__split_list_into_chunks items nb_chunks) = items.
Proof.
  rewrite split_as_windows.
  apply concat_windows; [lia | apply range_step_covers; lia].
Qed.

Lemma length_split items nb_chunks :
  let n := Z.to_nat (Z.max 1 nb_chunks) in
  length (__split_list_into_chunks items nb_chunks) = ((length items + n - 1) / n)%nat.
Proof.
  intros n. rewrite split_as_windows. fold n.
  now rewrite !length_map, length_seq.
Qed.

Lemma nth_split items nb_chunks k :
  let n := Z.to_nat (Z.max 1 nb_chunks) in
  (k < length (__split_list_into_chunks items nb_chunks))%nat ->
  nth k (__split_list_into_chunks items nb_chunks) [] =
  firstn n (skipn (k * n) items).
Proof.
  intros n Hk. rewrite length_split in Hk. fold n in Hk.
  rewrite split_as_windows. fold n. rewrite map_map.
  rewrite (nth_indep _ [] (firstn n (skipn (0 * n) items)))
    by (now rewrite length_map, length_seq).
  rewrite (map_nth (fun k => firstn n (skipn (k * n) items))).
  now rewrite seq_nth.
Qed.

Lemma split_nil nb_chunks : __split_list_into_chunks (@nil A) nb_chunks = [].
Proof.
  rewrite split_as_windows. cbn [length Nat.add].
  rewrite Nat.div_small; [reflexivity | lia].
Qed.

Lemma split_clamps items nb_chunks :
  __split_list_into_chunks items nb_chunks =
  __split_list_into_chunks items (Z.max 1 nb_chunks).
Proof.
  unfold __split_list_into_chunks. now rewrite Z.max_assoc, Z.max_id.
Qed.

Lemma nth_split_nonempty items nb_chunks k :
  (k < length (__split_list_into_chunks items nb_chunks))%nat ->
  nth k (__split_list_into_chunks items nb_chunks) [] <> [].
Proof.
  intros Hk. rewrite nth_split by assumption.
  rewrite length_split in Hk.
  set (n := Z.to_nat (Z.max 1 nb_chunks)) in *.
  assert (Hn : (0 < n)%nat) by (subst n; lia).
  assert (Hlen : (0 < length items)%nat).
  { destruct items; cbn [length] in *; [|lia].
    rewrite Nat.div_small in Hk; lia. }
  pose proof (range_step_tight (length items) n Hn Hlen) as Htight.
  assert (Hin : (k * n < length items)%nat) by nia.
  intros Hnil. apply (f_equal (@length A)) in Hnil.
  rewrite length_firstn, length_skipn in Hnil. cbn in Hnil. lia.
Qed.

Lemma length_nth_split items nb_chunks k :
  (S k < length (__split_list_into_chunks items nb_chunks))%nat ->
  length (nth k (__split_list_into_chunks items nb_chunks) []) =
  Z.to_nat (Z.max 1 nb_chunks).
Proof.
  intros Hk. rewrite nth_split by lia.
  rewrite length_split in Hk.
  set (n := Z.to_nat (Z.max 1 nb_chunks)) in *.
  assert (Hn : (0 < n)%nat) by (subst n; lia).
  pose proof (Nat.div_mod_eq (length items + n - 1) n) as E.
  rewrite length_firstn, length_skipn. nia.
Qed.

End Partition.

(** C4. Whatever chunk size is asked for, the chunks of
    [__split_list_into_chunks] put end to end are the universe: chunk [k]
    is the window of the universe that starts at item [k * n] and is at most
    [n] items wide, [n] being the chunk size after clamping; so the chunks
    are contiguous, in the original order, and do not overlap.  No chunk is
    empty. *)
Theorem partition_covers_universe (universe : Universe) (nb_chunks : Z) :
  let chunks := __split_list_into_chunks universe nb_chunks in
  let n := Z.to_nat (Z.max 1 nb_chunks) in
  concat chunks = universe /\
  forall k, (k < length chunks)%nat ->
            nth k chunks [] = firstn n (skipn (k * n) universe) /\
            nth k chunks [] <> [].
Proof.
  cbn zeta. split; [apply concat_split|].
  intros k Hk. split; [now apply nth_split | now apply nth_split_nonempty].
Qed.

Lemma partition_covers_universe_witness :
  concat (__split_list_into_chunks ["A"; "B"; "C"; "D"; "E"] 2)
  = ["A"; "B"; "C"; "D"; "E"] /\
  nth 2 (__split_list_into_chunks ["A"; "B"; "C"; "D"; "E"] 2) [] = ["E"].
Proof.
  destruct (partition_covers_universe ["A"; "B"; "C"; "D"; "E"] 2) as [Hall Hnth].
  split; [exact Hall|].
  destruct (Hnth 2%nat) as [Hwindow _]; [vm_compute; lia | exact Hwindow].
Defined.

(** ** Running computations *)

Section Running.

Context {B : Type}.

Lemma bind_run {A C} (m : M B A) (k : A -> M B C) s :
  bind m k s =
  match result_of (m s) with
  | inl ex => (inl ex, state_of (m s), events_of (m s))
  | inr a =>
      let o := k a (state_of (m s)) in
      (result_of o, state_of o, events_of (m s) ++ events_of o)
  end.
Proof.
  unfold bind, result_of, state_of, events_of.
  destruct (m s) as [[[ex|a] s1] e1]; cbn; [reflexivity|].
  now destruct (k a s1) as [[r2 s2] e2].
Qed.

Lemma try_except_run {A} (m : M B A) (h : Exn -> M B A) s :
  try_except m h s =
  match result_of (m s) with
  | inl ex =>
      let o := h ex (state_of (m s)) in
      (result_of o, state_of o, events_of (m s) ++ events_of o)
  | inr a => (inr a, state_of (m s), events_of (m s))
  end.
Proof.
  unfold try_except, result_of, state_of, events_of.
  destruct (m s) as [[[ex|a] s1] e1]; cbn; [|reflexivity].
  now destruct (h ex s1) as [[r2 s2] e2].
Qed.

Lemma attempt_run {A} (m : M B A) s :
  attempt m s = (inr (result_of (m s)), state_of (m s), events_of (m s)).
Proof.
  unfold attempt, result_of, state_of, events_of.
  now destruct (m s) as [[r s1] e1].
Qed.

(** A property of events that holds of every event of [m] and of every
    event of what follows holds of every event of the sequence. *)
Lemma Forall_events_bind {A C} (P : Event -> Prop) (m : M B A) (k : A -> M B C) s :
  Forall P (events_of (m s)) ->
  (forall a s', Forall P (events_of (k a s'))) ->
  Forall P (events_of (bind m k s)).
Proof.
  intros Hm Hk. rewrite bind_run.
  destruct (result_of (m s)); cbn; [assumption|].
  apply Forall_app; split; [assumption | apply Hk].
Qed.

Lemma Forall_events_try_except {A} (P : Event -> Prop) (m : M B A) h s :
  Forall P (events_of (m s)) ->
  (forall ex s', Forall P (events_of (h ex s'))) ->
  Forall P (events_of (try_except m h s)).
Proof.
  intros Hm Hh. rewrite try_except_run.
  destruct (result_of (m s)); cbn; [|assumption].
  apply Forall_app; split; [assumption | apply Hh].
Qed.

Lemma Forall_events_attempt {A} (P : Event -> Prop) (m : M B A) s :
  Forall P (events_of (m s)) -> Forall P (events_of (attempt m s)).
Proof. now rewrite attempt_run. Qed.

Lemma Forall_events_emit (P : Event -> Prop) ev (s : B) :
  P ev -> Forall P (events_of (emit ev s)).
Proof. intros H. cbn. now constructor. Qed.

Lemma Forall_events_ret {A} (P : Event -> Prop) (a : A) (s : B) :
  Forall P (events_of (ret a s)).
Proof. constructor. Qed.

Lemma Forall_events_when (P : Event -> Prop) b (m : M B unit) s :
  Forall P (events_of (m s)) -> Forall P (events_of (when b m s)).
Proof. destruct b; cbn; [trivial | constructor]. Qed.

(** Tasks whose result does not depend on the state they start from. *)
Lemma executor_map_result {T A} (fn : T -> M B A) (g : T -> Exn + A) :
  (forall task s, result_of (fn task s) = g task) ->
  forall tasks s,
    result_of (executor_map fn tasks s) = inr (map g tasks).
Proof.
  intros Hfn. induction tasks as [|task rest IH]; intros s; [reflexivity|].
  cbn [executor_map]. rewrite bind_run, attempt_run. cbn.
  rewrite bind_run, IH. cbn. now rewrite Hfn.
Qed.

Lemma Forall_events_executor_map {T A} (P : Event -> Prop) (fn : T -> M B A) :
  (forall task s, Forall P (events_of (fn task s))) ->
  forall tasks s, Forall P (events_of (executor_map fn tasks s)).
Proof.
  intros Hfn. induction tasks as [|task rest IH]; intros s; [constructor|].
  cbn [executor_map].
  apply Forall_events_bind; [apply Forall_events_attempt, Hfn|].
  intros r s1. apply Forall_events_bind; [apply IH|].
  intros rs s2. constructor.
Qed.

End Running.

(** ** ResultAggregator: the collecting loop *)

Lemma for_result_in_tables (tables : list DataFrame) (output_df : DataFrame) :
  for_result_in (map (fun table => inr (Some table)) tables) output_df =
  (output_df ++ concat tables, None).
Proof.
  revert output_df. induction tables as [|table rest IH]; intros output_df; cbn.
  - now rewrite app_nil_r.
  - rewrite app_nil_r, IH. now rewrite <- app_assoc.
Qed.

(** ** RetryingFetcher: [internal_get_data] *)

Section Retry.

Context {B : Type} (rd : Backend B).
Variables (universe : Universe) (fields : FieldSet) (parameters : Parameters).


Lemma get_data_run s :
  get_data rd universe fields parameters s =
  (fst (rd_get_data rd universe fields parameters s), snd (rd_get_data rd universe fields parameters s),
   [EvGetData universe fields parameters (fst (rd_get_data rd universe fields parameters s))]).
Proof.
  unfold get_data. now destruct (rd_get_data _ _ _ _ s).
Qed.

(** One turn of the loop. *)
Lemma loop_step remaining res s :
  while_not_succeeded rd universe fields parameters (S remaining) res s =
  match fst (rd_get_data rd universe fields parameters s) with
  | inr table =>
      (inr table, snd (rd_get_data rd universe fields parameters s),
       [EvGetData universe fields parameters (inr table)])
  | inl ex =>
      let o := while_not_succeeded rd universe fields parameters remaining res (snd (rd_get_data rd universe fields parameters s)) in
      (result_of o, state_of o,
       failed_attempt universe fields parameters ex remaining ++ events_of o)
  end.
Proof.
  cbn [while_not_succeeded].
  rewrite bind_run, attempt_run, get_data_run. cbn.
  destruct (fst (rd_get_data rd universe fields parameters s)) as [ex|table]; cbn.
  - rewrite bind_run. cbn. rewrite bind_run. cbn. reflexivity.
  - reflexivity.
Qed.

(** The loop ends in one of two ways: a request succeeded, after fewer
    failures than the budget, and nothing was asked after it; or the
    budget was used up by failures and [res] is returned untouched. *)
Lemma loop_shape budget res s :
  let o := while_not_succeeded rd universe fields parameters budget res s in
  (exists causes table s0,
      (length causes < budget)%nat /\
      fst (rd_get_data rd universe fields parameters s0) = inr table /\
      result_of o = inr table /\
      events_of o =
      failed_attempts universe fields parameters causes budget
      ++ [EvGetData universe fields parameters (inr table)])
  \/
  (exists causes,
      length causes = budget /\
      result_of o = inr res /\
      events_of o = failed_attempts universe fields parameters causes budget).
Proof.
  revert s. induction budget as [|remaining IH]; intros s; cbn zeta.
  - right. exists []. now split.
  - rewrite loop_step. destruct (fst (rd_get_data rd universe fields parameters s)) as [ex|table] eqn:E.
    + destruct (IH (snd (rd_get_data rd universe fields parameters s))) as
        [(causes & table & s0 & Hlen & Hs0 & Hres & Hev) | (causes & Hlen & Hres & Hev)].
      * left. exists (ex :: causes), table, s0. cbn zeta.
        unfold result_of, events_of in *. cbn in *.
        rewrite Nat.sub_0_r, Hev.
        repeat split; try assumption; lia.
      * right. exists (ex :: causes). cbn zeta.
        unfold result_of, events_of in *. cbn in *.
        rewrite Nat.sub_0_r, Hev. repeat split; try assumption; lia.
    + left. exists [], table, s. cbn. repeat split; try assumption; lia.
Qed.

Lemma loop_returns budget res s :
  exists table, result_of (while_not_succeeded rd universe fields parameters budget res s) = inr table.
Proof.
  destruct (loop_shape budget res s) as
    [(causes & table & s0 & _ & _ & Hres & _) | (causes & _ & Hres & _)];
    eauto.
Qed.

(** When the request always fails the whole budget is spent. *)
Lemma loop_exhausted budget res s :
  request_fails rd universe fields parameters ->
  exists causes,
    length causes = budget /\
    result_of (while_not_succeeded rd universe fields parameters budget res s) = inr res /\
    events_of (while_not_succeeded rd universe fields parameters budget res s) =
    failed_attempts universe fields parameters causes budget.
Proof.
  intros Hfail.
  destruct (loop_shape budget res s) as
    [(causes & table & s0 & _ & Hs0 & _) | H]; [|exact H].
  destruct (Hfail s0) as [ex Hex]. congruence.
Qed.

(** When the request always succeeds the first attempt ends the loop. *)
Lemma loop_first_success remaining res table s :
  (forall s, fst (rd_get_data rd universe fields parameters s) = inr table) ->
  result_of (while_not_succeeded rd universe fields parameters (S remaining) res s) = inr table /\
  events_of (while_not_succeeded rd universe fields parameters (S remaining) res s) =
  [EvGetData universe fields parameters (inr table)].
Proof.
  intros H. rewrite loop_step, H. now split.
Qed.

End Retry.

Section InternalGetData.

Context {B : Type} (rd : Backend B).
Variables (universe : Universe) (fields : FieldSet) (parameters : Parameters).


(** Without a session of its own the call is the loop, announced. *)
Lemma internal_run_plain s table :
  result_of (while_not_succeeded rd universe fields parameters 5%nat pd_DataFrame s) = inr table ->
  internal_get_data rd universe fields parameters false s =
  (inr (Some table), state_of (while_not_succeeded rd universe fields parameters 5%nat pd_DataFrame s),
   EvPrint (BatchRequested (Py.len universe)) :: events_of (while_not_succeeded rd universe fields parameters 5%nat pd_DataFrame s)).
Proof.
  intros Hres. unfold internal_get_data.
  set (budget := 5%nat) in *. clearbody budget.
  rewrite try_except_run, bind_run. cbn.
  rewrite bind_run. cbn. rewrite bind_run. rewrite Hres. cbn.
  rewrite bind_run. cbn. now rewrite app_nil_r.
Qed.

(** The session does not open: nothing is asked, [None] is returned. *)
Lemma internal_run_not_opened s ex :
  fst (rd_open_session rd s) = Some ex ->
  internal_get_data rd universe fields parameters true s =
  (inr None, snd (rd_open_session rd s),
   [EvSetParam "http.request-timeout" 120; EvOpenSession (Some ex); EvPrint (InternalException ex)]).
Proof.
  intros Hopen. unfold internal_get_data.
  rewrite try_except_run, bind_run. cbn. unfold __open_session.
  rewrite bind_run. cbn. unfold open_session.
  destruct (rd_open_session rd s) as [r s1]. cbn in Hopen. subst r.
  reflexivity.
Qed.

(** The session opens: the loop runs, then the session is closed; an
    exception on closing replaces the table by [None]. *)
Lemma internal_run_opened s table :
  fst (rd_open_session rd s) = None ->
  let s1 := snd (rd_open_session rd s) in
  let o := while_not_succeeded rd universe fields parameters 5%nat pd_DataFrame s1 in
  let closing := rd_close_session rd (state_of o) in
  result_of o = inr table ->
  internal_get_data rd universe fields parameters true s =
  (match fst closing with None => inr (Some table) | Some _ => inr None end,
   snd closing,
   [EvSetParam "http.request-timeout" 120; EvOpenSession None; EvPrint (BatchRequested (Py.len universe))] ++ events_of o
   ++ EvCloseSession (fst closing)
      :: match fst closing with
         | None => []
         | Some ex => [EvPrint (InternalException ex)]
         end).
Proof.
  intros Hopen s1 o closing Hres. unfold internal_get_data.
  set (budget := 5%nat) in *. clearbody budget.
  rewrite try_except_run, bind_run. cbn. unfold __open_session.
  rewrite bind_run. cbn. unfold open_session.
  subst closing o s1. destruct (rd_open_session rd s) as [r s1].
  cbn [fst snd] in *. subst r. cbn.
  rewrite bind_run. cbn. rewrite bind_run. rewrite Hres. cbn.
  rewrite bind_run. unfold close, close_session. cbn.
  destruct (rd_close_session rd (state_of (while_not_succeeded rd universe fields parameters budget pd_DataFrame s1)))
    as [[ex|] s2]; cbn.
  - rewrite bind_run. cbn. now rewrite <- app_assoc.
  - reflexivity.
Qed.

(** A request that always fails: the table created before the loop comes
    back, as a normal result. *)
Lemma internal_result_failing open_the_session s :
  request_fails rd universe fields parameters ->
  (open_the_session = true -> sessions_ok rd) ->
  result_of (internal_get_data rd universe fields parameters open_the_session s)
  = inr (Some pd_DataFrame).
Proof.
  intros Hfail Hsessions. destruct open_the_session.
  - destruct (Hsessions eq_refl s) as [Hopen _].
    destruct (loop_exhausted rd universe fields parameters 5 pd_DataFrame
                (snd (rd_open_session rd s)) Hfail)
      as (causes & _ & Hres & _).
    rewrite (internal_run_opened s _ Hopen Hres).
    destruct (Hsessions eq_refl
                (state_of (while_not_succeeded rd universe fields parameters 5%nat pd_DataFrame (snd (rd_open_session rd s)))))
      as [_ Hclose].
    now rewrite Hclose.
  - destruct (loop_exhausted rd universe fields parameters 5 pd_DataFrame s Hfail) as (causes & _ & Hres & _).
    now rewrite (internal_run_plain s _ Hres).
Qed.

(** A request that always succeeds with [table]: [table] comes back. *)
Lemma internal_result_success open_the_session s table :
  (forall s, fst (rd_get_data rd universe fields parameters s) = inr table) ->
  (open_the_session = true -> sessions_ok rd) ->
  result_of (internal_get_data rd universe fields parameters open_the_session s)
  = inr (Some table).
Proof.
  intros Hok Hsessions. destruct open_the_session.
  - destruct (Hsessions eq_refl s) as [Hopen _].
    destruct (loop_first_success rd universe fields parameters 4 pd_DataFrame
                table (snd (rd_open_session rd s)) Hok) as [Hres _].
    rewrite (internal_run_opened s _ Hopen Hres).
    destruct (Hsessions eq_refl
                (state_of (while_not_succeeded rd universe fields parameters 5%nat pd_DataFrame (snd (rd_open_session rd s)))))
      as [_ Hclose].
    now rewrite Hclose.
  - destruct (loop_first_success rd universe fields parameters 4 pd_DataFrame table s Hok)
      as [Hres _].
    now rewrite (internal_run_plain s _ Hres).
Qed.

(** The call never raises. *)
Lemma internal_never_raises open_the_session s :
  exists value,
    result_of (internal_get_data rd universe fields parameters open_the_session s)
    = inr value.
Proof.
  destruct open_the_session.
  - destruct (fst (rd_open_session rd s)) as [ex|] eqn:Hopen.
    + rewrite (internal_run_not_opened s _ Hopen). now eexists.
    + destruct (loop_returns rd universe fields parameters 5 pd_DataFrame
                  (snd (rd_open_session rd s))) as [table Hres].
      rewrite (internal_run_opened s _ Hopen Hres).
      cbn. destruct (fst (rd_close_session _ _)); now eexists.
  - destruct (loop_returns rd universe fields parameters 5 pd_DataFrame s)
      as [table Hres].
    rewrite (internal_run_plain s _ Hres). now eexists.
Qed.

End InternalGetData.

(** ** ConcurrencyStrategy: the fan-out methods *)

Section Pools.

Context {B : Type} (platform : Platform).

Lemma result_bind {A C} (m : M B A) (k : A -> M B C) s :
  result_of (bind m k s) =
  match result_of (m s) with
  | inl ex => inl ex
  | inr a => result_of (k a (state_of (m s)))
  end.
Proof. rewrite bind_run. now destruct (result_of (m s)). Qed.

Lemma ThreadPoolExecutor_run (s : B) :
  ThreadPoolExecutor platform s =
  (inr (Z.pos (thread_max_workers platform)), s,
   [EvThreadPool (Z.pos (thread_max_workers platform))]).
Proof. unfold ThreadPoolExecutor. now rewrite bind_run. Qed.

Lemma ProcessPoolExecutor_accepted nb_workers (s : B) :
  accepted platform nb_workers = true ->
  ProcessPoolExecutor platform nb_workers s =
  (inr nb_workers, s, [EvProcessPool nb_workers]).
Proof.
  unfold accepted, ProcessPoolExecutor. intros H.
  apply andb_prop in H. destruct H as [Hpos Hlimit].
  apply Z.ltb_lt in Hpos.
  destruct (Z.leb_spec nb_workers 0); [lia|].
  apply Z.leb_le in Hlimit.
  destruct (Z.ltb_spec (process_max_workers_limit platform) nb_workers);
    [lia | reflexivity].
Qed.

Lemma ProcessPoolExecutor_not_positive nb_workers (s : B) :
  nb_workers <= 0 ->
  ProcessPoolExecutor platform nb_workers s =
  (inl (ValueError "max_workers must be greater than 0"), s, []).
Proof.
  unfold ProcessPoolExecutor. intros H.
  destruct (Z.leb_spec nb_workers 0); [reflexivity | lia].
Qed.

End Pools.

Section FanOut.

Context {B : Type} (rd : Backend B) (platform : Platform).
Variable oracle : Universe -> FieldSet -> Parameters -> Exn + DataFrame.
Hypothesis Hanswers : answers rd oracle.
Hypothesis Hsessions : sessions_ok rd.

Lemma open_session_result s : result_of (__open_session rd s) = inr tt.
Proof.
  unfold __open_session. rewrite result_bind. cbn. unfold open_session.
  destruct (Hsessions s) as [Hopen _].
  destruct (rd_open_session rd s) as [r s1]. cbn in *. now subst r.
Qed.

Lemma close_result s : result_of (close rd s) = inr tt.
Proof.
  unfold close, close_session.
  destruct (Hsessions s) as [_ Hclose].
  destruct (rd_close_session rd s) as [r s1]. cbn in *. now subst r.
Qed.

Lemma internal_result universe fields parameters open_the_session s :
  result_of (internal_get_data rd universe fields parameters open_the_session s)
  = inr (Some (chunk_table oracle fields parameters universe)).
Proof.
  unfold chunk_table.
  destruct (oracle universe fields parameters) as [ex|table] eqn:E; cbn.
  - apply internal_result_failing; [|trivial].
    intros s0. exists ex. now rewrite Hanswers.
  - apply internal_result_success; [|trivial].
    intros s0. now rewrite Hanswers.
Qed.

Lemma thread_result universe fields parameters nb_items_threshold open_the_session s :
  result_of (threadPoolExecutor_get_data rd platform universe fields parameters
                                         nb_items_threshold open_the_session s)
  = inr (thread_table oracle platform universe fields parameters nb_items_threshold).
Proof.
  unfold threadPoolExecutor_get_data, thread_table.
  rewrite result_bind.
  assert (Hwhen : forall s', result_of (when open_the_session (__open_session rd) s') = inr tt)
    by (intros s'; destruct open_the_session; [apply open_session_result | reflexivity]).
  assert (Hclose : forall s', result_of (when open_the_session (close rd) s') = inr tt)
    by (intros s'; destruct open_the_session; [apply close_result | reflexivity]).
  rewrite Hwhen, result_bind, ThreadPoolExecutor_run. cbn.
  rewrite result_bind. cbn. rewrite result_bind. cbn.
  rewrite result_bind.
  rewrite (executor_map_result _
             (fun chunk => inr (Some (chunk_table oracle fields parameters chunk))))
    by (intros; apply internal_result).
  rewrite <- (map_map (chunk_table oracle fields parameters)
                      (fun table => inr (Some table))).
  rewrite for_result_in_tables. cbn.
  rewrite result_bind. cbn. rewrite result_bind, Hclose. reflexivity.
Qed.

Lemma process_result universe fields parameters nb_items_threshold nb_workers s :
  accepted platform nb_workers = true ->
  result_of (processPoolExecutor_get_data rd platform universe fields parameters
                                          nb_items_threshold nb_workers s)
  = inr (Some (process_table oracle universe fields parameters
                             nb_items_threshold nb_workers)).
Proof.
  intros Hw. unfold processPoolExecutor_get_data, process_table.
  rewrite result_bind, ProcessPoolExecutor_accepted by assumption. cbn.
  destruct (Py.len _ <? 2).
  - apply internal_result.
  - rewrite result_bind. cbn. rewrite result_bind. cbn.
    rewrite result_bind.
    rewrite (executor_map_result _
               (fun chunk => inr (Some (chunk_table oracle fields parameters chunk))))
      by (intros; apply internal_result).
    rewrite <- (map_map (chunk_table oracle fields parameters)
                        (fun table => inr (Some table))).
    rewrite for_result_in_tables. cbn.
    now rewrite result_bind.
Qed.

Lemma hybrid_result universe fields parameters nb_items_threshold nb_workers s :
  accepted platform nb_workers = true ->
  result_of (hybridPoolExecutor_get_data rd platform universe fields parameters
                                         nb_items_threshold nb_workers s)
  = inr (hybrid_table oracle platform universe fields parameters
                      nb_items_threshold nb_workers).
Proof.
  intros Hw. unfold hybridPoolExecutor_get_data, hybrid_table.
  rewrite result_bind, ProcessPoolExecutor_accepted by assumption. cbn.
  destruct (Py.len _ <? 2).
  - apply thread_result.
  - rewrite result_bind. cbn. rewrite result_bind. cbn.
    rewrite result_bind.
    rewrite (executor_map_result _
               (fun chunk =>
                  inr (thread_table oracle platform chunk fields parameters
                                    nb_items_threshold)))
      by (intros; apply thread_result).
    rewrite map_map.
    rewrite <- (map_map (fun chunk =>
                           thread_table oracle platform chunk fields parameters
                                        nb_items_threshold)
                        (fun table => inr (Some table))).
    rewrite for_result_in_tables. cbn.
    now rewrite result_bind.
Qed.

End FanOut.

(** ** Which events a method can cause *)

Section Dispatch.

Context {B : Type} (rd : Backend B) (platform : Platform).


Lemma quiet_get_data universe fields parameters s :
  Forall quiet (events_of (get_data rd universe fields parameters s)).
Proof.
  unfold get_data. destruct (rd_get_data _ _ _ _ s). now repeat constructor.
Qed.

Lemma quiet_open_session s : Forall quiet (events_of (open_session rd s)).
Proof.
  unfold open_session. destruct (rd_open_session rd s). now repeat constructor.
Qed.

Lemma quiet_close_session s : Forall quiet (events_of (close_session rd s)).
Proof.
  unfold close_session. destruct (rd_close_session rd s). now repeat constructor.
Qed.

Ltac walk_with known :=
  repeat first
    [ known
    | apply Forall_events_ret
    | apply Forall_events_emit; reflexivity
    | apply Forall_events_when
    | apply Forall_events_attempt
    | apply quiet_get_data
    | apply quiet_open_session
    | apply quiet_close_session
    | apply Forall_events_bind; [|intros ? ?]
    | apply Forall_events_try_except; [|intros ? ?] ].

Ltac walk := walk_with fail.

Lemma quiet_loop universe fields parameters budget res s :
  Forall quiet
         (events_of (while_not_succeeded rd universe fields parameters budget res s)).
Proof.
  revert s. induction budget as [|remaining IH]; intros s; cbn [while_not_succeeded].
  - walk.
  - apply Forall_events_bind; [apply Forall_events_attempt, quiet_get_data|].
    intros [ex|table] s1; [|apply Forall_events_ret].
    unfold time_sleep, print. walk. apply IH.
Qed.

Lemma quiet_internal universe fields parameters open_the_session s :
  Forall quiet
         (events_of (internal_get_data rd universe fields parameters
                                       open_the_session s)).
Proof.
  unfold internal_get_data, __open_session, close, print.
  walk_with ltac:(apply quiet_loop).
Qed.

Lemma quiet_thread universe fields parameters nb_items_threshold open_the_session s :
  Forall quiet
         (events_of (threadPoolExecutor_get_data rd platform universe fields
                       parameters nb_items_threshold open_the_session s)).
Proof.
  unfold threadPoolExecutor_get_data, ThreadPoolExecutor, __open_session,
    close, print.
  walk.
  - apply Forall_events_executor_map. intros. apply quiet_internal.
  - destruct (for_result_in _ _) as [output_df [e|]]; walk.
Qed.

End Dispatch.

(** ** Chunk sizes *)

Lemma events_bind {B A C} (m : M B A) (k : A -> M B C) s :
  events_of (bind m k s) =
  events_of (m s)
  ++ match result_of (m s) with
     | inl _ => []
     | inr a => events_of (k a (state_of (m s)))
     end.
Proof.
  rewrite bind_run. destruct (result_of (m s)); cbn; [now rewrite app_nil_r | reflexivity].
Qed.

(** [math.ceil(a / b)] is the ceiling of the quotient. *)
Lemma ceil_div_spec a b :
  0 < b ->
  Py.ceil_div a b = Spec.ceil_quotient a b /\
  (Py.ceil_div a b - 1) * b < a <= Py.ceil_div a b * b.
Proof.
  intros Hb. unfold Py.ceil_div, Spec.ceil_quotient.
  pose proof (Z.div_mod a b ltac:(lia)) as Ha.
  pose proof (Z.mod_pos_bound a b Hb) as Hr.
  destruct (Z.eqb_spec (a mod b) 0) as [E|E].
  - rewrite Z_div_zero_opp_full by (assumption || lia). split; nia.
  - rewrite Z_div_nz_opp_full by (assumption || lia). split; nia.
Qed.

Lemma effective_chunk_size_eq t len w :
  0 < w ->
  Z.max (Py.ceil_div len w) t = Spec.effective_chunk_size t len w.
Proof.
  intros Hw. unfold Spec.effective_chunk_size.
  destruct (ceil_div_spec len w Hw) as [<- _]. apply Z.max_comm.
Qed.

(** Every chunk but the last is as wide as the effective chunk size. *)
Lemma chunk_width (universe : Universe) t w k :
  0 < w ->
  let n := Spec.effective_chunk_size t (Py.len universe) w in
  (S k < length (__split_list_into_chunks universe n))%nat ->
  Z.of_nat (length (nth k (__split_list_into_chunks universe n) [])) = n.
Proof.
  intros Hw n Hk. rewrite length_nth_split by assumption.
  assert (Hne : universe <> []).
  { intros ->. rewrite split_nil in Hk. cbn in Hk. lia. }
  assert (Hlen : 0 < Py.len universe).
  { unfold Py.len. destruct universe; [congruence | cbn [length]; lia]. }
  subst n. rewrite <- effective_chunk_size_eq by assumption.
  destruct (ceil_div_spec (Py.len universe) w Hw) as [_ Hceil]. nia.
Qed.

Lemma split_by_one {A} (items : list A) :
  __split_list_into_chunks items 1 = map (fun item => [item]) items.
Proof.
  rewrite split_as_windows. cbn [Z.max Z.compare Z.to_nat Pos.to_nat Pos.iter_op Nat.add].
  change (Z.to_nat (Z.max 1 1)) with 1%nat.
  rewrite Nat.add_sub, Nat.div_1_r, map_map.
  induction items as [|item rest IH]; [reflexivity|].
  cbn [length seq map]. rewrite <- seq_shift, map_map. cbn [Nat.mul Nat.add skipn firstn].
  f_equal. rewrite <- IH. apply map_ext. intros i.
  now rewrite !Nat.mul_1_r.
Qed.

(** C8. Partitioning the empty universe gives no chunk, whatever the chunk
    size; collecting no result leaves the empty table and catches no
    exception; and the thread fan-out over the empty universe, whatever the
    batch size and the number of workers, asks the backend nothing and
    returns the empty table. *)
Theorem empty_universe_empty_table {B} (rd : Backend B) (platform : Platform)
        (fields : FieldSet) (parameters : Parameters)
        (nb_items_threshold nb_chunks : Z) (s : B) :
  __split_list_into_chunks (@nil string) nb_chunks = [] /\
  for_result_in [] pd_DataFrame = (pd_DataFrame, None) /\
  threadPoolExecutor_get_data rd platform [] fields parameters
                              nb_items_threshold false s =
  (inr pd_DataFrame, s,
   [EvThreadPool (Z.pos (thread_max_workers platform));
    EvPrint (SendingBatches (Z.max 0 nb_items_threshold) 0);
    EvThreadMap []]).
Proof.
  split; [apply split_nil|]. split; [reflexivity|].
  unfold threadPoolExecutor_get_data.
  rewrite bind_run. cbn. rewrite bind_run, ThreadPoolExecutor_run. cbn.
  rewrite split_nil.
  rewrite bind_run. cbn. rewrite bind_run. cbn. rewrite bind_run. cbn.
  rewrite bind_run. cbn. rewrite bind_run. cbn. reflexivity.
Qed.

(** C5. The chunk size that the fan-out methods hand to the partitioner is
    max(nb_items_threshold, ceil(len(universe) / workers)), workers being
    the size of the pool: the thread fan-out prints it and dispatches the
    universe split by it, and so do the process and the hybrid fan-out when
    they dispatch at all.  It is never below [nb_items_threshold], and every
    chunk but the last holds exactly that many items. *)
Theorem effective_chunk_size_is_max {B} (rd : Backend B) (platform : Platform)
        (universe : Universe) (fields : FieldSet) (parameters : Parameters)
        (nb_items_threshold nb_workers : Z) (s : B) :
  accepted platform nb_workers = true ->
  let threads := Z.pos (thread_max_workers platform) in
  let n_thread :=
    Spec.effective_chunk_size nb_items_threshold (Py.len universe) threads in
  let n_process :=
    Spec.effective_chunk_size nb_items_threshold (Py.len universe) nb_workers in
  let by_threads := __split_list_into_chunks universe n_thread in
  let by_processes := __split_list_into_chunks universe n_process in
  firstn 3 (events_of (threadPoolExecutor_get_data
                         rd platform universe fields parameters
                         nb_items_threshold false s))
  = [EvThreadPool threads;
     EvPrint (SendingBatches n_thread (Py.len by_threads));
     EvThreadMap by_threads]
  /\ (2 <= Py.len by_processes ->
      firstn 3 (events_of (processPoolExecutor_get_data
                             rd platform universe fields parameters
                             nb_items_threshold nb_workers s))
      = [EvProcessPool nb_workers;
         EvPrint (LaunchingProcesses (Py.len by_processes));
         EvProcessMap by_processes]
      /\
      firstn 3 (events_of (hybridPoolExecutor_get_data
                             rd platform universe fields parameters
                             nb_items_threshold nb_workers s))
      = [EvProcessPool nb_workers;
         EvPrint (LaunchingProcesses (Py.len by_processes));
         EvProcessMap by_processes])
  /\ nb_items_threshold <= n_thread
  /\ nb_items_threshold <= n_process
  /\ (forall k, (S k < length by_threads)%nat ->
                Z.of_nat (length (nth k by_threads [])) = n_thread)
  /\ (forall k, (S k < length by_processes)%nat ->
                Z.of_nat (length (nth k by_processes [])) = n_process).
Proof.
  intros Hacc threads n_thread n_process by_threads by_processes.
  assert (Hw : 0 < nb_workers).
  { unfold accepted in Hacc. apply andb_prop in Hacc. now apply Z.ltb_lt. }
  assert (Ht : 0 < threads) by (subst threads; lia).
  repeat split.
  - unfold threadPoolExecutor_get_data.
    rewrite events_bind. cbn.
    rewrite events_bind, ThreadPoolExecutor_run. cbn.
    rewrite effective_chunk_size_eq by assumption.
    rewrite events_bind. cbn. rewrite events_bind. cbn. reflexivity.
  - unfold processPoolExecutor_get_data.
    rewrite events_bind, ProcessPoolExecutor_accepted by assumption. cbn.
    rewrite effective_chunk_size_eq by assumption.
    fold n_process by_processes.
    destruct (Z.ltb_spec (Py.len by_processes) 2); [lia|].
    rewrite events_bind. cbn. rewrite events_bind. cbn. reflexivity.
  - unfold hybridPoolExecutor_get_data.
    rewrite events_bind, ProcessPoolExecutor_accepted by assumption. cbn.
    rewrite effective_chunk_size_eq by assumption.
    fold n_process by_processes.
    destruct (Z.ltb_spec (Py.len by_processes) 2); [lia|].
    rewrite events_bind. cbn. rewrite events_bind. cbn. reflexivity.
  - subst n_thread. unfold Spec.effective_chunk_size. lia.
  - subst n_process. unfold Spec.effective_chunk_size. lia.
  - intros k Hk. now apply chunk_width.
  - intros k Hk. now apply chunk_width.
Qed.

Lemma effective_chunk_size_is_max_witness :
  accepted Fake.posix 3 = true /\
  firstn 3 (events_of (processPoolExecutor_get_data
                         Fake.one_row_per_id Fake.posix (Fake.instruments 37)
                         ["A"; "B"] [] 5 3 tt))
  = [EvProcessPool 3;
     EvPrint (LaunchingProcesses 3);
     EvProcessMap (__split_list_into_chunks (Fake.instruments 37) 13)].
Proof.
  split; [reflexivity|].
  destruct (effective_chunk_size_is_max
              Fake.one_row_per_id Fake.posix (Fake.instruments 37)
              ["A"; "B"] [] 5 3 tt eq_refl) as (_ & Hprocess & _).
  destruct Hprocess as [Hdispatch _]; [vm_compute; discriminate|].
  exact Hdispatch.
Defined.

(** C9, as the code has it.  A chunk size that is not positive is clamped
    to 1 by [__split_list_into_chunks], which is defined for every integer
    chunk size: the chunks are then the single items.  The number of workers
    is not clamped: with a number that is not positive the constructor of
    the process pool raises [ValueError], and both methods built on it raise
    in turn, before anything is partitioned or asked. *)
Theorem chunk_size_clamped_workers_refused {B} (rd : Backend B) (platform : Platform)
        (universe : Universe) (fields : FieldSet) (parameters : Parameters)
        (nb_items_threshold nb_chunks nb_workers : Z) (s : B) :
  __split_list_into_chunks universe nb_chunks
  = __split_list_into_chunks universe (Z.max 1 nb_chunks)
  /\ (nb_chunks <= 0 ->
      __split_list_into_chunks universe nb_chunks = map (fun id => [id]) universe)
  /\ (nb_workers <= 0 ->
      processPoolExecutor_get_data rd platform universe fields parameters
                                   nb_items_threshold nb_workers s
      = (inl (ValueError "max_workers must be greater than 0"), s, [])
      /\
      hybridPoolExecutor_get_data rd platform universe fields parameters
                                  nb_items_threshold nb_workers s
      = (inl (ValueError "max_workers must be greater than 0"), s, [])).
Proof.
  split; [apply split_clamps|]. split.
  - intros Hk. rewrite split_clamps.
    replace (Z.max 1 nb_chunks) with 1 by lia. apply split_by_one.
  - intros Hw.
    unfold processPoolExecutor_get_data, hybridPoolExecutor_get_data.
    rewrite !bind_run, !ProcessPoolExecutor_not_positive by assumption.
    now split.
Qed.

Lemma chunk_size_clamped_workers_refused_witness :
  __split_list_into_chunks ["A"; "B"; "C"] (-4) = [["A"]; ["B"]; ["C"]] /\
  hybridPoolExecutor_get_data Fake.one_row_per_id Fake.posix ["A"; "B"; "C"]
                              ["F"] [] 1 (-2) tt
  = (inl (ValueError "max_workers must be greater than 0"), tt, []).
Proof.
  destruct (chunk_size_clamped_workers_refused
              Fake.one_row_per_id Fake.posix ["A"; "B"; "C"] ["F"] [] 1 (-4) (-2) tt)
    as (_ & Hsize & Hworkers).
  split.
  - apply Hsize. lia.
  - apply Hworkers. lia.
Defined.

(** C9 fails for the number of workers: zero workers make the process
    fan-out raise, where a clamp to one worker would have returned the
    table. *)
Lemma worker_count_not_clamped :
  result_of (processPoolExecutor_get_data Fake.one_row_per_id Fake.posix
                                          ["A"; "B"] ["F"] [] 1 0 tt)
  = inl (ValueError "max_workers must be greater than 0")
  /\
  result_of (processPoolExecutor_get_data Fake.one_row_per_id Fake.posix
                                          ["A"; "B"] ["F"] [] 1 1 tt)
  = inr (Some [Fake.row_of ["F"] "A"; Fake.row_of ["F"] "B"]).
Proof. split; reflexivity. Qed.

(** The menu keeps both settings positive: what [execute] passes on as
    batch size and as number of child processes never needs a clamp. *)
Lemma menu_option_keeps_positive INSTRUMENTS_LIST option num st :
  0 < Harness.batch_size st /\ 0 < Harness.child_cnt st ->
  0 < Harness.batch_size (Harness.menu_option INSTRUMENTS_LIST option num st) /\
  0 < Harness.child_cnt (Harness.menu_option INSTRUMENTS_LIST option num st).
Proof.
  intros [Hbatch Hchild]. unfold Harness.menu_option.
  destruct (option =? 1); [now split|].
  destruct (option =? 2); [destruct (Z.gtb_spec num 0); now split|].
  destruct (_ && _); [destruct (Z.gtb_spec num 0); cbn; split; lia|].
  destruct (_ && _); [destruct (Z.gtb_spec num 0); cbn; split; lia|].
  now split.
Qed.

Lemma main_menu_keeps_positive INSTRUMENTS_LIST inputs :
  0 < Harness.batch_size (Harness.main_menu INSTRUMENTS_LIST inputs) /\
  0 < Harness.child_cnt (Harness.main_menu INSTRUMENTS_LIST inputs).
Proof.
  unfold Harness.main_menu.
  assert (Hinit : 0 < Harness.batch_size (Harness.initial INSTRUMENTS_LIST) /\
                  0 < Harness.child_cnt (Harness.initial INSTRUMENTS_LIST))
    by (cbn; unfold NB_ITEMS_THRESHOLD, CHILD_PROCESSES; lia).
  revert Hinit. generalize (Harness.initial INSTRUMENTS_LIST).
  induction inputs as [|input rest IH]; intros st Hst; [exact Hst|].
  cbn [fold_left]. apply IH. now apply menu_option_keeps_positive.
Qed.

Example menu_refuses_zero_workers :
  Harness.child_cnt
    (Harness.main_menu ["A"; "B"] [(1, 3); (4, 0); (4, -7)]) = 2
  /\ Harness.child_cnt
       (Harness.main_menu ["A"; "B"] [(1, 3); (4, 0); (4, 5)]) = 5.
Proof. split; reflexivity. Qed.

Example windows_refuses_62_workers :
  result_of (ProcessPoolExecutor Fake.windows 62 tt)
  = inl (ValueError "max_workers must be <= 61")
  /\ result_of (ProcessPoolExecutor Fake.posix 62 tt) = inr 62
  /\ result_of (ProcessPoolExecutor Fake.posix 2147483647 tt)
     = inl (OverflowError "Python int too large to convert to C int").
Proof. repeat split; reflexivity. Qed.

(** Without a session the child processes of the hybrid fan-out raise; the
    first exception is caught and printed, the empty table is returned. *)
Example hybrid_without_session :
  hybridPoolExecutor_get_data Fake.no_session Fake.posix ["A"; "B"; "C"; "D"]
                              ["F"] [] 1 2 tt
  = (inr [], tt,
     [EvProcessPool 2; EvPrint (LaunchingProcesses 2);
      EvProcessMap [["A"; "B"]; ["C"; "D"]];
      EvSetParam "http.request-timeout" 120;
      EvOpenSession (Some (RDError "no desktop application"));
      EvSetParam "http.request-timeout" 120;
      EvOpenSession (Some (RDError "no desktop application"));
      EvPrint (ProcessPoolException (RDError "no desktop application"))]).
Proof. reflexivity. Qed.

(** The harness run of the specification: 37 instruments, by processes. *)
Example execute_by_processes :
  result_of (Harness.execute Fake.one_row_per_id Fake.posix ["A"; "B"]
               (Harness.mkSettings PROCESS (Fake.instruments 37) 5 3) tt)
  = inr (Some (map (Fake.row_of ["A"; "B"]) (Fake.instruments 37))).
Proof. reflexivity. Qed.

(** ** The retry budget *)

Lemma requests_and_sleeps_failed universe fields parameters causes budget :
  requests_and_sleeps (failed_attempts universe fields parameters causes budget)
  = flat_map (fun cause => [EvGetData universe fields parameters (inl cause);
                            EvSleep 200])
             causes.
Proof.
  revert budget. induction causes as [|cause rest IH]; intros budget; [reflexivity|].
  cbn. unfold requests_and_sleeps in IH. now rewrite IH.
Qed.

Lemma requests_failed universe fields parameters causes budget :
  filter is_request (failed_attempts universe fields parameters causes budget)
  = map (fun cause => EvGetData universe fields parameters (inl cause)) causes.
Proof.
  revert budget. induction causes as [|cause rest IH]; intros budget; [reflexivity|].
  cbn. now rewrite IH.
Qed.

(** The requests and pauses of a loop, in the terms of its two endings. *)
Lemma loop_requests {B} (rd : Backend B) universe fields parameters budget res s :
  let o := while_not_succeeded rd universe fields parameters budget res s in
  exists (causes : list Exn) (received : option DataFrame),
    requests_and_sleeps (events_of o)
    = flat_map (fun cause => [EvGetData universe fields parameters (inl cause);
                              EvSleep 200])
               causes
      ++ match received with
         | Some table => [EvGetData universe fields parameters (inr table)]
         | None => []
         end
    /\ nb_requests (events_of o)
       = (length causes + match received with Some _ => 1 | None => 0 end)%nat
    /\ (nb_requests (events_of o) <= budget)%nat
    /\ result_of o = inr (match received with Some table => table | None => res end)
    /\ (received = None -> length causes = budget)
    /\ (request_fails rd universe fields parameters -> received = None).
Proof.
  cbn zeta.
  destruct (loop_shape rd universe fields parameters budget res s) as
    [(causes & table & s0 & Hlen & Hs0 & Hres & Hev) | (causes & Hlen & Hres & Hev)].
  - exists causes, (Some table). rewrite Hev, Hres.
    unfold requests_and_sleeps, nb_requests. rewrite !filter_app.
    fold (requests_and_sleeps (failed_attempts universe fields parameters causes budget)).
    rewrite requests_and_sleeps_failed, requests_failed.
    rewrite length_app, length_map. cbn.
    repeat split; try lia; try discriminate.
    intros Hfail. destruct (Hfail s0) as [ex Hex]. congruence.
  - exists causes, None. rewrite Hev, Hres.
    unfold nb_requests.
    rewrite requests_and_sleeps_failed, requests_failed, length_map, app_nil_r.
    repeat split; try lia; try assumption.
Qed.

(** C3. Whatever the backend does, [internal_get_data] asks it at most 5
    times: its requests and pauses are a run of failed requests, each
    followed at once by a pause of 200 ms, ended by at most one successful
    request, after which nothing more is asked and whose table is the
    result.  When the request fails every time, exactly 5 requests are made
    and none succeeds. *)
Theorem retry_at_most_five_attempts {B} (rd : Backend B)
        (universe : Universe) (fields : FieldSet) (parameters : Parameters)
        (open_the_session : bool) (s : B) :
  let o := internal_get_data rd universe fields parameters open_the_session s in
  exists (causes : list Exn) (received : option DataFrame),
    requests_and_sleeps (events_of o)
    = flat_map (fun cause => [EvGetData universe fields parameters (inl cause);
                              EvSleep 200])
               causes
      ++ match received with
         | Some table => [EvGetData universe fields parameters (inr table)]
         | None => []
         end
    /\ nb_requests (events_of o)
       = (length causes + match received with Some _ => 1 | None => 0 end)%nat
    /\ (nb_requests (events_of o) <= 5)%nat
    /\ ((open_the_session = true -> sessions_ok rd) ->
        result_of o
        = inr (Some match received with Some table => table | None => pd_DataFrame end)
        /\ (request_fails rd universe fields parameters ->
            received = None /\ nb_requests (events_of o) = 5%nat)).
Proof.
  cbn zeta. destruct open_the_session.
  - destruct (fst (rd_open_session rd s)) as [ex|] eqn:Hopen.
    + rewrite (internal_run_not_opened rd universe fields parameters s ex Hopen).
      exists [], None. cbn.
      split; [reflexivity|]. split; [reflexivity|]. split; [lia|].
      intros Hsessions. destruct (Hsessions eq_refl s) as [Hok _]. congruence.
    + destruct (loop_requests rd universe fields parameters 5 pd_DataFrame
                  (snd (rd_open_session rd s)))
        as (causes & received & Hshape & Hnb & Hle & Hres & Hnone & Hfail).
      rewrite (internal_run_opened rd universe fields parameters s _ Hopen Hres).
      exists causes, received.
      unfold requests_and_sleeps, nb_requests in *. cbn [events_of snd].
      rewrite !filter_app.
      assert (Hpost : forall test,
                 (forall r, test (EvCloseSession r) = false) ->
                 (forall m, test (EvPrint m) = false) ->
                 filter test
                   (EvCloseSession
                      (fst (rd_close_session rd
                              (state_of
                                 (while_not_succeeded rd universe fields parameters 5
                                    pd_DataFrame (snd (rd_open_session rd s))))))
                    :: match
                         fst (rd_close_session rd
                                (state_of
                                   (while_not_succeeded rd universe fields parameters 5
                                      pd_DataFrame (snd (rd_open_session rd s)))))
                       with
                       | None => []
                       | Some ex => [EvPrint (InternalException ex)]
                       end) = []).
      { intros test Hc Hp. cbn [filter]. rewrite Hc.
        destruct (fst (rd_close_session rd _)); cbn [filter]; [now rewrite Hp | reflexivity]. }
      rewrite !Hpost by reflexivity. cbn [filter is_request_or_sleep is_request app].
      rewrite !app_nil_r.
      split; [assumption|]. split; [assumption|]. split; [assumption|].
      intros Hsessions. split.
      * cbn [result_of fst].
        destruct (Hsessions eq_refl
                    (state_of (while_not_succeeded rd universe fields parameters 5
                                 pd_DataFrame (snd (rd_open_session rd s)))))
          as [_ Hclose].
        now rewrite Hclose.
      * intros Hfails. split; [now apply Hfail|].
        rewrite Hnb, (Hfail Hfails). cbn. rewrite Nat.add_0_r.
        now apply Hnone, Hfail.
  - destruct (loop_requests rd universe fields parameters 5 pd_DataFrame s)
      as (causes & received & Hshape & Hnb & Hle & Hres & Hnone & Hfail).
    rewrite (internal_run_plain rd universe fields parameters s _ Hres).
    exists causes, received.
    unfold requests_and_sleeps, nb_requests in *. cbn [events_of snd filter is_request_or_sleep is_request].
    split; [assumption|]. split; [assumption|]. split; [assumption|].
    intros _. split; [reflexivity|].
    intros Hfails. split; [now apply Hfail|].
    rewrite Hnb, (Hfail Hfails). cbn. rewrite Nat.add_0_r.
    now apply Hnone, Hfail.
Qed.

Lemma retry_at_most_five_attempts_witness :
  nb_requests (events_of (internal_get_data Fake.always_failing ["A"; "B"] ["F"] []
                                            true tt)) = 5%nat.
Proof.
  destruct (retry_at_most_five_attempts Fake.always_failing ["A"; "B"] ["F"] [] true tt)
    as (causes & received & _ & _ & _ & Hrest).
  destruct Hrest as [_ Hfail].
  - intros _ s. now split.
  - apply Hfail. intros s. now exists (RDError "timeout").
Defined.

(** Two failures, then a success: three requests, two pauses, and the table
    of the third request. *)
Example retry_until_success :
  let o := internal_get_data Fake.flaky ["A"] ["F"] [] false 2%nat in
  result_of o = inr (Some [Fake.row_of ["F"] "A"]) /\
  requests_and_sleeps (events_of o)
  = [EvGetData ["A"] ["F"] [] (inl (RDError "busy")); EvSleep 200;
     EvGetData ["A"] ["F"] [] (inl (RDError "busy")); EvSleep 200;
     EvGetData ["A"] ["F"] [] (inr [Fake.row_of ["F"] "A"])].
Proof. split; reflexivity. Qed.

(** C1 fails: with a backend that fails every request the call returns, and
    what it returns is the empty table; nothing is raised. *)
Lemma exhausted_retries_return_normally :
  always_fails Fake.always_failing /\
  result_of (internal_get_data Fake.always_failing ["A"; "B"] ["F"] [] false tt)
  = inr (Some pd_DataFrame) /\
  forall ex,
    result_of (internal_get_data Fake.always_failing ["A"; "B"] ["F"] [] false tt)
    <> inl ex.
Proof.
  split; [|split].
  - intros universe fields parameters s. now exists (RDError "timeout").
  - reflexivity.
  - intros ex. discriminate.
Qed.

(** C1, as the code has it.  When the request fails every time,
    [internal_get_data] makes its 5 requests and then returns, as a normal
    result, the empty table it created before the loop.  The exception of
    each failed request is printed and dropped; the one of the last request
    is printed with 0 attempts remaining. *)
Theorem exhausted_retries_print_the_cause {B} (rd : Backend B)
        (universe : Universe) (fields : FieldSet) (parameters : Parameters)
        (open_the_session : bool) (s : B) :
  request_fails rd universe fields parameters ->
  (open_the_session = true -> sessions_ok rd) ->
  let o := internal_get_data rd universe fields parameters open_the_session s in
  result_of o = inr (Some pd_DataFrame) /\
  exists causes,
    length causes = 5%nat /\
    filter is_request (events_of o)
    = map (fun cause => EvGetData universe fields parameters (inl cause)) causes /\
    In (EvPrint (RequestFailed (last causes (RDError "")) 0)) (events_of o).
Proof.
  intros Hfail Hsessions. cbn zeta.
  split; [now apply internal_result_failing|].
  assert (Hloop : forall s1,
             exists causes,
               length causes = 5%nat /\
               events_of (while_not_succeeded rd universe fields parameters 5
                                              pd_DataFrame s1)
               = failed_attempts universe fields parameters causes 5 /\
               result_of (while_not_succeeded rd universe fields parameters 5
                                              pd_DataFrame s1)
               = inr pd_DataFrame /\
               In (EvPrint (RequestFailed (last causes (RDError "")) 0))
                  (failed_attempts universe fields parameters causes 5)).
  { intros s1.
    destruct (loop_exhausted rd universe fields parameters 5 pd_DataFrame s1 Hfail)
      as (causes & Hlen & Hres & Hev).
    exists causes. repeat split; try assumption.
    destruct causes as [|c1 [|c2 [|c3 [|c4 [|c5 [|c6 rest]]]]]]; try discriminate.
    cbn. auto 20. }
  destruct open_the_session.
  - destruct (Hsessions eq_refl s) as [Hopen _].
    destruct (Hloop (snd (rd_open_session rd s))) as (causes & Hlen & Hev & Hres & Hin).
    rewrite (internal_run_opened rd universe fields parameters s _ Hopen Hres).
    destruct (Hsessions eq_refl
                (state_of (while_not_succeeded rd universe fields parameters 5
                             pd_DataFrame (snd (rd_open_session rd s)))))
      as [_ Hclose].
    rewrite Hclose, Hev. exists causes. cbn [events_of snd].
    rewrite !filter_app, requests_failed. cbn [filter is_request app].
    rewrite app_nil_r. refine (conj Hlen (conj eq_refl _)).
    apply (in_or_app [_; _; _]). right. apply in_or_app. now left.
  - destruct (Hloop s) as (causes & Hlen & Hev & Hres & Hin).
    rewrite (internal_run_plain rd universe fields parameters s _ Hres), Hev.
    exists causes. cbn [events_of snd filter is_request].
    rewrite requests_failed. refine (conj Hlen (conj eq_refl _)). now right.
Qed.

Lemma exhausted_retries_print_the_cause_witness :
  result_of (internal_get_data Fake.always_failing ["A"; "B"] ["F"] [] true tt)
  = inr (Some pd_DataFrame).
Proof.
  refine (proj1 (exhausted_retries_print_the_cause
                   Fake.always_failing ["A"; "B"] ["F"] [] true tt _ _)).
  - intros s. now exists (RDError "timeout").
  - intros _ s. now split.
Defined.



(** ** Failures and fan-out *)

Lemma executor_map_returns {B T A} (fn : T -> M B A) tasks s :
  exists results, result_of (executor_map fn tasks s) = inr results.
Proof.
  revert s. induction tasks as [|task rest IH]; intros s; [now eexists|].
  cbn [executor_map]. rewrite result_bind, attempt_run. cbn.
  rewrite result_bind. destruct (IH (state_of (fn task s))) as [results ->].
  now eexists.
Qed.

Lemma thread_returns {B} (rd : Backend B) platform universe fields parameters
      nb_items_threshold s :
  exists table,
    result_of (threadPoolExecutor_get_data rd platform universe fields parameters
                                           nb_items_threshold false s) = inr table.
Proof.
  unfold threadPoolExecutor_get_data.
  rewrite result_bind. cbn. rewrite result_bind, ThreadPoolExecutor_run. cbn.
  rewrite result_bind. cbn. rewrite result_bind. cbn. rewrite result_bind.
  destruct (executor_map_returns
              (fun chunk => internal_get_data rd chunk fields parameters false)
              (__split_list_into_chunks
                 universe
                 (Z.max (Py.ceil_div (Py.len universe)
                                     (Z.pos (thread_max_workers platform)))
                        nb_items_threshold)) s) as [results ->].
  destruct (for_result_in results pd_DataFrame) as [output_df [e|]];
    rewrite result_bind; cbn; rewrite result_bind; cbn; now eexists.
Qed.

Lemma process_returns {B} (rd : Backend B) platform universe fields parameters
      nb_items_threshold nb_workers s :
  accepted platform nb_workers = true ->
  exists value,
    result_of (processPoolExecutor_get_data rd platform universe fields parameters
                                            nb_items_threshold nb_workers s)
    = inr value.
Proof.
  intros Hacc. unfold processPoolExecutor_get_data.
  rewrite result_bind, ProcessPoolExecutor_accepted by assumption. cbn.
  destruct (Py.len _ <? 2); [apply internal_never_raises|].
  rewrite result_bind. cbn. rewrite result_bind. cbn. rewrite result_bind.
  destruct (executor_map_returns
              (fun chunk => internal_get_data rd chunk fields parameters true)
              (__split_list_into_chunks
                 universe
                 (Z.max (Py.ceil_div (Py.len universe) nb_workers) nb_items_threshold))
              s) as [results ->].
  destruct (for_result_in results pd_DataFrame) as [output_df [e|]];
    rewrite result_bind; cbn; now eexists.
Qed.

Lemma hybrid_returns {B} (rd : Backend B) platform universe fields parameters
      nb_items_threshold nb_workers s :
  accepted platform nb_workers = true ->
  exists table,
    result_of (hybridPoolExecutor_get_data rd platform universe fields parameters
                                           nb_items_threshold nb_workers s)
    = inr table.
Proof.
  intros Hacc. unfold hybridPoolExecutor_get_data.
  rewrite result_bind, ProcessPoolExecutor_accepted by assumption. cbn.
  destruct (Py.len _ <? 2); [apply thread_returns|].
  rewrite result_bind. cbn. rewrite result_bind. cbn. rewrite result_bind.
  destruct (executor_map_returns
              (fun chunk => threadPoolExecutor_get_data rd platform chunk fields
                              parameters nb_items_threshold true)
              (__split_list_into_chunks
                 universe
                 (Z.max (Py.ceil_div (Py.len universe) nb_workers) nb_items_threshold))
              s) as [results ->].
  destruct (for_result_in _ pd_DataFrame) as [output_df [e|]];
    rewrite result_bind; cbn; now eexists.
Qed.




(** ** Equivalence of the strategies *)

Lemma rows_of_chunks {A R} (row : A -> R) (items : list A) nb_chunks :
  concat (map (map row) (__split_list_into_chunks items nb_chunks)) = map row items.
Proof.
  now rewrite <- concat_map, concat_split.
Qed.

(** How far the strategies agree.  With a backend that answers every
    request with one row per identifier, in the order asked, rows that may
    depend on the fields and on the parameters of the request, and whose
    sessions open and close: the direct call, the thread fan-out and the
    hybrid fan-out return the table of the request, one row per item of the
    universe in the order of the universe, whatever the batch sizes and the
    accepted numbers of workers; the process fan-out returns it when it
    dispatches, and in its fallback returns the table of the request with
    the default parameters. *)
Lemma strategies_up_to_the_process_fallback {B} (rd : Backend B) (platform : Platform)
      (row_of : FieldSet -> Parameters -> string -> Row)
      (universe : Universe) (fields : FieldSet) (parameters : Parameters)
      (threshold_thread threshold_process threshold_hybrid : Z)
      (workers_process workers_hybrid : Z) (s1 s2 s3 s4 : B) :
  (forall universe fields parameters s,
      fst (rd_get_data rd universe fields parameters s)
      = inr (map (row_of fields parameters) universe)) ->
  sessions_ok rd ->
  accepted platform workers_process = true ->
  accepted platform workers_hybrid = true ->
  let table := map (row_of fields parameters) universe in
  let chunks :=
    __split_list_into_chunks
      universe
      (Z.max (Py.ceil_div (Py.len universe) workers_process) threshold_process) in
  result_of (internal_get_data rd universe fields parameters false s1)
  = inr (Some table)
  /\ result_of (threadPoolExecutor_get_data rd platform universe fields parameters
                                            threshold_thread false s2)
     = inr table
  /\ result_of (hybridPoolExecutor_get_data rd platform universe fields parameters
                                            threshold_hybrid workers_hybrid s4)
     = inr table
  /\ result_of (processPoolExecutor_get_data rd platform universe fields parameters
                                             threshold_process workers_process s3)
     = inr (Some (if Py.len chunks <? 2
                  then map (row_of fields []) universe
                  else table)).
Proof.
  intros Hrows Hsessions Hprocess Hhybrid table chunks.
  set (oracle := fun (universe : Universe) (fields : FieldSet) (parameters : Parameters) =>
                   @inr Exn DataFrame (map (row_of fields parameters) universe)).
  assert (Hanswers : answers rd oracle) by (intros u f p s; apply Hrows).
  assert (Hthread : forall chunk threshold,
             thread_table oracle platform chunk fields parameters threshold
             = map (row_of fields parameters) chunk).
  { intros chunk threshold. unfold thread_table, chunk_table, oracle.
    cbn [rows_or_nothing]. apply rows_of_chunks. }
  split; [|split; [|split]].
  - now rewrite (internal_result rd oracle Hanswers Hsessions).
  - rewrite (thread_result rd platform oracle Hanswers Hsessions). now rewrite Hthread.
  - rewrite (hybrid_result rd platform oracle Hanswers Hsessions) by assumption.
    unfold hybrid_table. destruct (Py.len _ <? 2); [now rewrite Hthread|].
    rewrite (map_ext _ (map (row_of fields parameters)))
      by (intros chunk; apply Hthread).
    now rewrite rows_of_chunks.
  - rewrite (process_result rd platform oracle Hanswers Hsessions) by assumption.
    unfold process_table, chunk_table, oracle. cbn [rows_or_nothing].
    fold chunks. destruct (Py.len chunks <? 2); [reflexivity|].
    do 2 f_equal. apply (rows_of_chunks (row_of fields parameters)).
Qed.

(** C6: a defect of the code.  The claim holds of the direct call, of the
    thread fan-out and of the hybrid fan-out, but not of the process
    fan-out: its fallback, line 132, calls [internal_get_data] without the
    [parameters], which the dispatch of line 140 and the hybrid fallback of
    line 169 pass on.  Here, 37 instruments, fields A and B, the default
    batch size of 800, and a backend whose rows show the parameters of the
    request: the process fan-out with 3 workers returns the rows of the
    request without parameters, the three others the rows of the request. *)
Lemma process_fallback_breaks_equivalence :
  let rd := Fake.honouring_parameters in
  let universe := Fake.instruments 37 in
  let fields := ["A"; "B"] in
  let parameters := [("SDate", "0")] in
  let table := map (Fake.row_with fields parameters) universe in
  result_of (internal_get_data rd universe fields parameters false tt)
  = inr (Some table)
  /\ result_of (threadPoolExecutor_get_data rd Fake.posix universe fields parameters
                                            NB_ITEMS_THRESHOLD false tt)
     = inr table
  /\ result_of (hybridPoolExecutor_get_data rd Fake.posix universe fields parameters
                                            NB_ITEMS_THRESHOLD 2 tt)
     = inr table
  /\ result_of (processPoolExecutor_get_data rd Fake.posix universe fields parameters
                                             NB_ITEMS_THRESHOLD 3 tt)
     = inr (Some (map (Fake.row_with fields []) universe))
  /\ map (Fake.row_with fields []) universe <> table.
Proof.
  cbn zeta. repeat split; try (vm_compute; reflexivity).
  vm_compute. discriminate.
Qed.

(** C7: a defect of the code.  With fewer than 2 chunks nothing is handed
    to a pool of processes, and the hybrid fan-out is the thread fan-out on
    the same request; but the process fan-out is not the direct fetch of the
    same request: line 132 calls [internal_get_data] with the universe and
    the fields alone, so that what comes back is the direct fetch with the
    default parameters.  Here, 4 instruments in one chunk, and a backend
    whose rows show the parameters of the request. *)
Lemma process_fallback_is_not_the_direct_fetch :
  let rd := Fake.honouring_parameters in
  let universe := Fake.instruments 4 in
  let parameters := [("SDate", "0")] in
  let by_processes :=
    processPoolExecutor_get_data rd Fake.posix universe ["A"] parameters 5 2 tt in
  let hybrid :=
    hybridPoolExecutor_get_data rd Fake.posix universe ["A"] parameters 5 2 tt in
  Py.len (__split_list_into_chunks
            universe (Spec.effective_chunk_size 5 (Py.len universe) 2)) < 2
  /\ result_of by_processes
     = result_of (internal_get_data rd universe ["A"] [] false tt)
  /\ result_of by_processes
     <> result_of (internal_get_data rd universe ["A"] parameters false tt)
  /\ result_of hybrid
     = result_of (threadPoolExecutor_get_data rd Fake.posix universe ["A"]
                                              parameters 5 false tt)
  /\ existsb is_process_dispatch (events_of by_processes ++ events_of hybrid) = false.
Proof.
  cbn zeta. repeat split; try (vm_compute; reflexivity).
  vm_compute. discriminate.
Qed.

(** * Further properties *)

(** ** The partitioner: how many chunks, and how large *)

Lemma split_count_bounds {A} (items : list A) nb_chunks :
  let n := Z.to_nat (Z.max 1 nb_chunks) in
  let count := length (__split_list_into_chunks items nb_chunks) in
  (length items <= count * n)%nat /\ (count * n < length items + n)%nat.
Proof.
  cbn zeta. rewrite length_split.
  set (n := Z.to_nat (Z.max 1 nb_chunks)).
  assert (Hn : (0 < n)%nat) by (subst n; lia).
  split; [now apply range_step_covers|].
  destruct (Nat.eq_dec (length items) 0) as [E|E].
  - rewrite E. cbn [Nat.add]. rewrite Nat.div_small; lia.
  - apply range_step_tight; lia.
Qed.

Lemma split_chunk_lengths {A} (items : list A) nb_chunks :
  Forall (fun chunk => (1 <= length chunk <= Z.to_nat (Z.max 1 nb_chunks))%nat)
         (__split_list_into_chunks items nb_chunks).
Proof.
  apply Forall_forall. intros chunk Hin.
  destruct (In_nth _ _ [] Hin) as (k & Hk & <-).
  split.
  - pose proof (nth_split_nonempty items nb_chunks k Hk) as Hne.
    destruct (nth k _ []); [congruence | cbn; lia].
  - rewrite nth_split by assumption. rewrite length_firstn. lia.
Qed.

(** X1. [__split_list_into_chunks] makes ceil(len(items) / n) chunks, [n]
    being the chunk size after clamping, and every chunk holds at least one
    and at most [n] items. *)
Theorem chunk_count_and_sizes {A} (items : list A) (nb_chunks : Z) :
  let n := Z.max 1 nb_chunks in
  let chunks := __split_list_into_chunks items nb_chunks in
  Py.len chunks = Py.ceil_div (Py.len items) n /\
  Forall (fun chunk => 1 <= Py.len chunk <= n) chunks.
Proof.
  cbn zeta. split.
  - destruct (split_count_bounds items nb_chunks) as [Hlow Hhigh].
    destruct (ceil_div_spec (Py.len items) (Z.max 1 nb_chunks) ltac:(lia))
      as [_ Hceil].
    unfold Py.len in *.
    set (count := length (__split_list_into_chunks items nb_chunks)) in *.
    set (c := Py.ceil_div (Z.of_nat (length items)) (Z.max 1 nb_chunks)) in *.
    assert (Hn : Z.of_nat (Z.to_nat (Z.max 1 nb_chunks)) = Z.max 1 nb_chunks) by lia.
    nia.
  - eapply Forall_impl; [|apply split_chunk_lengths].
    intros chunk. unfold Py.len. cbn beta. lia.
Qed.

(** X2. A list that is not empty and fits in one chunk is returned as that
    one chunk. *)
Theorem single_chunk_when_it_fits {A} (items : list A) (nb_chunks : Z) :
  items <> [] ->
  Py.len items <= Z.max 1 nb_chunks ->
  __split_list_into_chunks items nb_chunks = [items].
Proof.
  intros Hne Hfits.
  destruct (split_count_bounds items nb_chunks) as [Hlow Hhigh].
  assert (Hlen : (0 < length items)%nat) by (destruct items; [congruence | cbn; lia]).
  unfold Py.len in Hfits.
  assert (Hcount : length (__split_list_into_chunks items nb_chunks) = 1%nat) by nia.
  pose proof (nth_split items nb_chunks 0 ltac:(lia)) as Hfirst.
  destruct (__split_list_into_chunks items nb_chunks) as [|chunk [|other rest]];
    try discriminate.
  cbn in Hfirst. subst chunk. f_equal. apply firstn_all2. lia.
Qed.

Lemma single_chunk_when_it_fits_witness :
  __split_list_into_chunks ["A"; "B"; "C"] 800 = [["A"; "B"; "C"]].
Proof.
  apply single_chunk_when_it_fits; [discriminate | vm_compute; discriminate].
Defined.

(** X3. Split by the size that the fan-out methods compute,
    max(ceil(len(universe) / workers), nb_items_threshold), the universe
    gives at most as many chunks as there are workers. *)
Theorem no_more_chunks_than_workers (universe : Universe)
        (nb_items_threshold workers : Z) :
  0 < workers ->
  Py.len (__split_list_into_chunks
            universe
            (Z.max (Py.ceil_div (Py.len universe) workers) nb_items_threshold))
  <= workers.
Proof.
  intros Hw.
  set (size := Z.max (Py.ceil_div (Py.len universe) workers) nb_items_threshold).
  destruct (split_count_bounds universe size) as [Hlow Hhigh].
  destruct (ceil_div_spec (Py.len universe) workers Hw) as [_ Hceil].
  unfold Py.len in *.
  set (count := length (__split_list_into_chunks universe size)) in *.
  assert (Hn : Z.of_nat (Z.to_nat (Z.max 1 size)) = Z.max 1 size) by lia.
  assert (Hsize : Py.ceil_div (Z.of_nat (length universe)) workers <= Z.max 1 size)
    by (subst size; lia).
  nia.
Qed.

Lemma no_more_chunks_than_workers_witness :
  Py.len (__split_list_into_chunks (Fake.instruments 37) (Z.max (Py.ceil_div 37 3) 5))
  <= 3.
Proof.
  apply (no_more_chunks_than_workers (Fake.instruments 37) 5 3). lia.
Defined.

(** ** The retrying fetcher: recovery, and what sessions do to the result *)

Lemma nb_requests_app events events' :
  nb_requests (events ++ events') = (nb_requests events + nb_requests events')%nat.
Proof. unfold nb_requests. now rewrite filter_app, length_app. Qed.

Lemma loop_recovers {B} (rd : Backend B) universe fields parameters k table :
  forall budget res s,
    fails_then_succeeds rd universe fields parameters k s table ->
    (k < budget)%nat ->
    let o := while_not_succeeded rd universe fields parameters budget res s in
    result_of o = inr table /\
    nb_requests (events_of o) = S k /\
    state_of o = state_after rd universe fields parameters (S k) s.
Proof.
  induction k as [|k IH]; intros [|remaining] res s Hk Hlt; try lia; cbn zeta.
  - cbn in Hk. rewrite loop_step, Hk. now repeat split.
  - destruct Hk as [[ex Hex] Hrest]. rewrite loop_step, Hex. cbn zeta.
    destruct (IH remaining res _ Hrest ltac:(lia)) as (Hres & Hnb & Hst).
    cbn [result_of state_of events_of fst snd].
    unfold result_of, state_of, events_of in *.
    rewrite Hres, Hst. split; [reflexivity|]. split; [|reflexivity].
    unfold failed_attempt. cbn [app]. unfold nb_requests in *.
    cbn [filter is_request length]. now rewrite Hnb.
Qed.

Lemma loop_gives_up {B} (rd : Backend B) universe fields parameters table :
  forall budget k res s,
    fails_then_succeeds rd universe fields parameters k s table ->
    (budget <= k)%nat ->
    let o := while_not_succeeded rd universe fields parameters budget res s in
    result_of o = inr res /\
    nb_requests (events_of o) = budget /\
    state_of o = state_after rd universe fields parameters budget s.
Proof.
  induction budget as [|remaining IH]; intros k res s Hk Hle; cbn zeta.
  - now repeat split.
  - destruct k as [|k]; [lia|]. destruct Hk as [[ex Hex] Hrest].
    rewrite loop_step, Hex. cbn zeta.
    destruct (IH k res _ Hrest ltac:(lia)) as (Hres & Hnb & Hst).
    cbn [result_of state_of events_of fst snd].
    unfold result_of, state_of, events_of in *.
    rewrite Hres, Hst. split; [reflexivity|]. split; [|reflexivity].
    unfold failed_attempt. cbn [app]. unfold nb_requests in *.
    cbn [filter is_request length]. now rewrite Hnb.
Qed.

(** X4. A request that fails [k] times in a row and then succeeds is
    recovered by [internal_get_data] when [k] is at most 4: the table of the
    request number [k + 1] is returned and nothing is asked after it.  From 5
    failures on the call gives up after its 5 requests and returns the empty
    table, without asking for the table that the next request would have
    brought. *)
Theorem transient_failures_recovered {B} (rd : Backend B)
        (universe : Universe) (fields : FieldSet) (parameters : Parameters)
        (k : nat) (s : B) (table : DataFrame) :
  fails_then_succeeds rd universe fields parameters k s table ->
  let o := internal_get_data rd universe fields parameters false s in
  ((k < 5)%nat ->
   result_of o = inr (Some table) /\
   nb_requests (events_of o) = S k /\
   state_of o = state_after rd universe fields parameters (S k) s)
  /\
  ((5 <= k)%nat ->
   result_of o = inr (Some pd_DataFrame) /\
   nb_requests (events_of o) = 5%nat /\
   state_of o = state_after rd universe fields parameters 5 s).
Proof.
  intros Hk. cbn zeta. split; intros Hbound.
  - destruct (loop_recovers rd universe fields parameters k table 5%nat
                            pd_DataFrame s Hk Hbound) as (Hres & Hnb & Hst).
    rewrite (internal_run_plain rd universe fields parameters s _ Hres).
    cbn [result_of state_of events_of fst snd]. now repeat split.
  - destruct (loop_gives_up rd universe fields parameters table 5%nat k
                            pd_DataFrame s Hk Hbound) as (Hres & Hnb & Hst).
    rewrite (internal_run_plain rd universe fields parameters s _ Hres).
    cbn [result_of state_of events_of fst snd]. now repeat split.
Qed.

Lemma transient_failures_recovered_witness :
  result_of (internal_get_data Fake.flaky ["A"] ["F"] [] false 4%nat)
  = inr (Some [Fake.row_of ["F"] "A"])
  /\
  result_of (internal_get_data Fake.flaky ["A"] ["F"] [] false 5%nat)
  = inr (Some pd_DataFrame).
Proof.
  split.
  - refine (proj1 (proj1 (transient_failures_recovered
                            Fake.flaky ["A"] ["F"] [] 4 4%nat
                            [Fake.row_of ["F"] "A"] _) _)).
    + cbn. repeat split; try (now exists (RDError "busy")).
    + lia.
  - refine (proj1 (proj2 (transient_failures_recovered
                            Fake.flaky ["A"] ["F"] [] 5 5%nat
                            [Fake.row_of ["F"] "A"] _) _)).
    + cbn. repeat split; try (now exists (RDError "busy")).
    + lia.
Defined.

Lemma filter_failed_attempts (test : Event -> bool) universe fields parameters
      causes budget :
  (forall u f p r, test (EvGetData u f p r) = false) ->
  (forall ms, test (EvSleep ms) = false) ->
  (forall m, test (EvPrint m) = false) ->
  filter test (failed_attempts universe fields parameters causes budget) = [].
Proof.
  intros Hget Hsleep Hprint. revert budget.
  induction causes as [|cause rest IH]; intros budget; [reflexivity|].
  cbn. now rewrite Hget, Hsleep, Hprint, IH.
Qed.

Lemma filter_loop_events {B} (rd : Backend B) (test : Event -> bool)
      universe fields parameters budget res s :
  (forall u f p r, test (EvGetData u f p r) = false) ->
  (forall ms, test (EvSleep ms) = false) ->
  (forall m, test (EvPrint m) = false) ->
  filter test
         (events_of (while_not_succeeded rd universe fields parameters budget res s))
  = [].
Proof.
  intros Hget Hsleep Hprint.
  destruct (loop_shape rd universe fields parameters budget res s) as
    [(causes & table & s0 & _ & _ & _ & Hev) | (causes & _ & _ & Hev)];
    rewrite Hev.
  - rewrite filter_app, filter_failed_attempts by assumption.
    cbn. now rewrite Hget.
  - now apply filter_failed_attempts.
Qed.

(** X5. [internal_get_data] never raises.  It returns [None] exactly when
    a session call raised, on opening or on closing; otherwise it returns a
    table.  Called without a session of its own it always returns a
    table. *)
Theorem none_only_when_session_raised {B} (rd : Backend B)
        (universe : Universe) (fields : FieldSet) (parameters : Parameters)
        (open_the_session : bool) (s : B) :
  let o := internal_get_data rd universe fields parameters open_the_session s in
  ((result_of o = inr None /\ filter session_raised (events_of o) <> [])
   \/
   (exists table,
       result_of o = inr (Some table) /\ filter session_raised (events_of o) = []))
  /\
  (open_the_session = false -> exists table, result_of o = inr (Some table)).
Proof.
  cbn zeta. destruct open_the_session.
  - split; [|discriminate].
    destruct (fst (rd_open_session rd s)) as [ex|] eqn:Hopen.
    + rewrite (internal_run_not_opened rd universe fields parameters s ex Hopen).
      left. split; [reflexivity | discriminate].
    + destruct (loop_returns rd universe fields parameters 5 pd_DataFrame
                             (snd (rd_open_session rd s))) as [table Hres].
      rewrite (internal_run_opened rd universe fields parameters s _ Hopen Hres).
      cbn [result_of events_of fst snd]. rewrite !filter_app.
      rewrite filter_loop_events by reflexivity.
      destruct (fst (rd_close_session rd _)) as [ex|].
      * left. split; [reflexivity | discriminate].
      * right. exists table. now split.
  - destruct (loop_returns rd universe fields parameters 5 pd_DataFrame s)
      as [table Hres].
    rewrite (internal_run_plain rd universe fields parameters s _ Hres).
    cbn [result_of events_of fst snd filter session_raised].
    rewrite filter_loop_events by reflexivity.
    split; [right|]; exists table; now repeat split.
Qed.

Lemma none_only_when_session_raised_witness :
  exists table,
    result_of (internal_get_data Fake.no_session ["A"] ["F"] [] false tt)
    = inr (Some table).
Proof.
  apply (none_only_when_session_raised Fake.no_session ["A"] ["F"] [] false tt).
  reflexivity.
Defined.

(** X6. When the session cannot be opened, [internal_get_data] prints the
    exception and returns [None], whereas [threadPoolExecutor_get_data]
    lets the exception through to its caller; in both nothing is asked of
    the backend, no pool is created and the session is not closed. *)
Theorem session_not_opened {B} (rd : Backend B) (platform : Platform)
        (universe : Universe) (fields : FieldSet) (parameters : Parameters)
        (nb_items_threshold : Z) (s : B) (ex : Exn) :
  fst (rd_open_session rd s) = Some ex ->
  internal_get_data rd universe fields parameters true s
  = (inr None, snd (rd_open_session rd s),
     [EvSetParam "http.request-timeout" 120; EvOpenSession (Some ex);
      EvPrint (InternalException ex)])
  /\
  threadPoolExecutor_get_data rd platform universe fields parameters
                              nb_items_threshold true s
  = (inl ex, snd (rd_open_session rd s),
     [EvSetParam "http.request-timeout" 120; EvOpenSession (Some ex)]).
Proof.
  intros Hopen. split; [now apply internal_run_not_opened|].
  unfold threadPoolExecutor_get_data, when, __open_session.
  rewrite bind_run. rewrite bind_run. cbn. unfold open_session.
  destruct (rd_open_session rd s) as [r s1]. cbn in Hopen. subst r. reflexivity.
Qed.

Lemma session_not_opened_witness :
  result_of (internal_get_data Fake.no_session ["A"] ["F"] [] true tt) = inr None
  /\
  result_of (threadPoolExecutor_get_data Fake.no_session Fake.posix ["A"] ["F"] []
                                         1 true tt)
  = inl (RDError "no desktop application").
Proof.
  destruct (session_not_opened Fake.no_session Fake.posix ["A"] ["F"] [] 1 tt
                               (RDError "no desktop application") eq_refl)
    as [Hinternal Hthread].
  rewrite Hinternal, Hthread. now split.
Defined.

(** X7. When the request succeeds but closing the session raises,
    [internal_get_data] prints the exception and returns [None]: the table
    it had received is lost. *)
Theorem close_failure_loses_table {B} (rd : Backend B)
        (universe : Universe) (fields : FieldSet) (parameters : Parameters)
        (s : B) (table : DataFrame) (ex : Exn) :
  let s1 := snd (rd_open_session rd s) in
  let s2 := snd (rd_get_data rd universe fields parameters s1) in
  fst (rd_open_session rd s) = None ->
  fst (rd_get_data rd universe fields parameters s1) = inr table ->
  fst (rd_close_session rd s2) = Some ex ->
  internal_get_data rd universe fields parameters true s
  = (inr None, snd (rd_close_session rd s2),
     [EvSetParam "http.request-timeout" 120; EvOpenSession None;
      EvPrint (BatchRequested (Py.len universe));
      EvGetData universe fields parameters (inr table);
      EvCloseSession (Some ex); EvPrint (InternalException ex)]).
Proof.
  intros s1 s2 Hopen Hget Hclose.
  assert (Hloop : while_not_succeeded rd universe fields parameters 5 pd_DataFrame s1
                  = (inr table, s2, [EvGetData universe fields parameters (inr table)])).
  { rewrite loop_step. subst s2. now rewrite Hget. }
  assert (Hres : result_of (while_not_succeeded rd universe fields parameters 5
                                                pd_DataFrame s1) = inr table)
    by now rewrite Hloop.
  rewrite (internal_run_opened rd universe fields parameters s _ Hopen Hres).
  fold s1. rewrite Hloop. cbn [state_of events_of fst snd]. now rewrite Hclose.
Qed.

Lemma close_failure_loses_table_witness :
  result_of (internal_get_data closing_fails ["A"] ["F"] [] true tt) = inr None.
Proof.
  now rewrite (close_failure_loses_table closing_fails ["A"] ["F"] [] tt
                 [Fake.row_of ["F"] "A"] (RDError "connection lost")
                 eq_refl eq_refl eq_refl).
Defined.

(** ** The fan-out methods: what they ask, and when they dispatch *)

Lemma events_executor_map_cons {B T A} (fn : T -> M B A) task rest s :
  events_of (executor_map fn (task :: rest) s)
  = events_of (fn task s) ++ events_of (executor_map fn rest (state_of (fn task s))).
Proof.
  cbn [executor_map]. rewrite events_bind, attempt_run. cbn.
  rewrite events_bind.
  destruct (executor_map_returns fn rest (state_of (fn task s))) as [results ->].
  cbn. now rewrite app_nil_r.
Qed.

Lemma count_executor_map {B T A} (fn : T -> M B A) (test : Event -> bool) c :
  (forall task s, length (filter test (events_of (fn task s))) = c) ->
  forall tasks s,
    length (filter test (events_of (executor_map fn tasks s)))
    = (c * length tasks)%nat.
Proof.
  intros Hfn. induction tasks as [|task rest IH]; intros s.
  - cbn. lia.
  - rewrite events_executor_map_cons, filter_app, length_app, Hfn, IH.
    cbn [length]. lia.
Qed.

Lemma count_executor_map_le {B T A} (fn : T -> M B A) (test : Event -> bool) c :
  (forall task s, (length (filter test (events_of (fn task s))) <= c)%nat) ->
  forall tasks s,
    (length (filter test (events_of (executor_map fn tasks s)))
     <= c * length tasks)%nat.
Proof.
  intros Hfn. induction tasks as [|task rest IH]; intros s.
  - cbn. lia.
  - rewrite events_executor_map_cons, filter_app, length_app.
    specialize (Hfn task s). specialize (IH (state_of (fn task s))).
    cbn [length]. lia.
Qed.

Lemma Forall_events_executor_map_in {B T A} (P : Event -> Prop) (fn : T -> M B A) :
  forall tasks,
    (forall task, In task tasks -> forall s, Forall P (events_of (fn task s))) ->
    forall s, Forall P (events_of (executor_map fn tasks s)).
Proof.
  induction tasks as [|task rest IH]; intros Hfn s; [constructor|].
  rewrite events_executor_map_cons. apply Forall_app. split.
  - apply Hfn. now left.
  - apply IH. intros task' Hin. apply Hfn. now right.
Qed.

Lemma executor_map_all {B T A} (fn : T -> M B A) (P : Exn + A -> Prop) :
  (forall task s, P (result_of (fn task s))) ->
  forall tasks s,
    exists results,
      result_of (executor_map fn tasks s) = inr results /\
      Forall P results /\ length results = length tasks.
Proof.
  intros Hfn. induction tasks as [|task rest IH]; intros s.
  - exists []. now repeat split.
  - cbn [executor_map]. rewrite result_bind, attempt_run. cbn.
    rewrite result_bind.
    destruct (IH (state_of (fn task s))) as (results & -> & Hall & Hlen).
    eexists. split; [reflexivity|]. split; [|cbn; now rewrite Hlen].
    constructor; [apply Hfn | assumption].
Qed.

(** The events of the three methods when they dispatch: the creation of the
    pool, the announcement, the dispatch, the events of the tasks, and at
    most one message about a caught exception. *)
Lemma thread_events {B} (rd : Backend B) platform universe fields parameters
      nb_items_threshold s :
  let workers := Z.pos (thread_max_workers platform) in
  let size := Z.max (Py.ceil_div (Py.len universe) workers) nb_items_threshold in
  let chunks := __split_list_into_chunks universe size in
  exists tail,
    events_of (threadPoolExecutor_get_data rd platform universe fields parameters
                                           nb_items_threshold false s)
    = [EvThreadPool workers; EvPrint (SendingBatches size (Py.len chunks));
       EvThreadMap chunks]
      ++ events_of (executor_map
                      (fun chunk => internal_get_data rd chunk fields parameters false)
                      chunks s)
      ++ tail
    /\ (tail = [] \/ exists m, tail = [EvPrint m]).
Proof.
  cbn zeta. unfold threadPoolExecutor_get_data.
  rewrite events_bind. cbn.
  rewrite events_bind, ThreadPoolExecutor_run. cbn.
  rewrite events_bind. cbn. rewrite events_bind. cbn. rewrite events_bind.
  destruct (executor_map_returns
              (fun chunk => internal_get_data rd chunk fields parameters false)
              (__split_list_into_chunks
                 universe
                 (Z.max (Py.ceil_div (Py.len universe)
                                     (Z.pos (thread_max_workers platform)))
                        nb_items_threshold)) s) as [results ->].
  destruct (for_result_in results pd_DataFrame) as [output_df [e|]];
    rewrite events_bind; cbn; rewrite events_bind; cbn; eexists; split;
      try reflexivity.
  - right. now eexists.
  - now left.
Qed.

Lemma process_events {B} (rd : Backend B) platform universe fields parameters
      nb_items_threshold nb_workers s :
  let size := Z.max (Py.ceil_div (Py.len universe) nb_workers) nb_items_threshold in
  let chunks := __split_list_into_chunks universe size in
  accepted platform nb_workers = true ->
  (Py.len chunks <? 2) = false ->
  exists tail,
    events_of (processPoolExecutor_get_data rd platform universe fields parameters
                                            nb_items_threshold nb_workers s)
    = [EvProcessPool nb_workers; EvPrint (LaunchingProcesses (Py.len chunks));
       EvProcessMap chunks]
      ++ events_of (executor_map
                      (fun chunk => internal_get_data rd chunk fields parameters true)
                      chunks s)
      ++ tail
    /\ (tail = [] \/ exists m, tail = [EvPrint m]).
Proof.
  cbn zeta. intros Hacc Hmany. unfold processPoolExecutor_get_data.
  rewrite events_bind, ProcessPoolExecutor_accepted by assumption. cbn.
  rewrite Hmany.
  rewrite events_bind. cbn. rewrite events_bind. cbn. rewrite events_bind.
  destruct (executor_map_returns
              (fun chunk => internal_get_data rd chunk fields parameters true)
              (__split_list_into_chunks
                 universe
                 (Z.max (Py.ceil_div (Py.len universe) nb_workers) nb_items_threshold))
              s) as [results ->].
  destruct (for_result_in results pd_DataFrame) as [output_df [e|]];
    rewrite events_bind; cbn; eexists; split; try reflexivity.
  - right. now eexists.
  - now left.
Qed.

Lemma hybrid_events {B} (rd : Backend B) platform universe fields parameters
      nb_items_threshold nb_workers s :
  let size := Z.max (Py.ceil_div (Py.len universe) nb_workers) nb_items_threshold in
  let chunks := __split_list_into_chunks universe size in
  accepted platform nb_workers = true ->
  (Py.len chunks <? 2) = false ->
  exists tail,
    events_of (hybridPoolExecutor_get_data rd platform universe fields parameters
                                           nb_items_threshold nb_workers s)
    = [EvProcessPool nb_workers; EvPrint (LaunchingProcesses (Py.len chunks));
       EvProcessMap chunks]
      ++ events_of (executor_map
                      (fun chunk =>
                         threadPoolExecutor_get_data rd platform chunk fields
                                                     parameters nb_items_threshold true)
                      chunks s)
      ++ tail
    /\ (tail = [] \/ exists m, tail = [EvPrint m]).
Proof.
  cbn zeta. intros Hacc Hmany. unfold hybridPoolExecutor_get_data.
  rewrite events_bind, ProcessPoolExecutor_accepted by assumption. cbn.
  rewrite Hmany.
  rewrite events_bind. cbn. rewrite events_bind. cbn. rewrite events_bind.
  destruct (executor_map_returns
              (fun chunk =>
                 threadPoolExecutor_get_data rd platform chunk fields
                                             parameters nb_items_threshold true)
              (__split_list_into_chunks
                 universe
                 (Z.max (Py.ceil_div (Py.len universe) nb_workers) nb_items_threshold))
              s) as [results ->].
  destruct (for_result_in _ pd_DataFrame) as [output_df [e|]];
    rewrite events_bind; cbn; eexists; split; try reflexivity.
  - right. now eexists.
  - now left.
Qed.

Lemma asks_only_failed_attempts chunks universe fields parameters causes budget :
  In universe chunks ->
  Forall (asks_only chunks fields parameters)
         (failed_attempts universe fields parameters causes budget).
Proof.
  intros Hin. revert budget.
  induction causes as [|cause rest IH]; intros budget; [constructor|].
  cbn. repeat (constructor; [now cbn|]). apply IH.
Qed.

Lemma internal_plain_asks_only {B} (rd : Backend B) chunks universe fields
      parameters s :
  In universe chunks ->
  Forall (asks_only chunks fields parameters)
         (events_of (internal_get_data rd universe fields parameters false s)).
Proof.
  intros Hin.
  destruct (loop_shape rd universe fields parameters 5 pd_DataFrame s) as
    [(causes & table & s0 & _ & _ & Hres & Hev) | (causes & _ & Hres & Hev)];
    rewrite (internal_run_plain rd universe fields parameters s _ Hres);
    cbn [events_of snd]; rewrite Hev; constructor; try exact I.
  - apply Forall_app. split; [now apply asks_only_failed_attempts|].
    now repeat constructor.
  - now apply asks_only_failed_attempts.
Qed.

Lemma internal_plain_nb_requests {B} (rd : Backend B) universe fields parameters s :
  (nb_requests (events_of (internal_get_data rd universe fields parameters false s))
   <= 5)%nat.
Proof.
  destruct (loop_requests rd universe fields parameters 5 pd_DataFrame s)
    as (causes & received & _ & _ & Hle & Hres & _).
  rewrite (internal_run_plain rd universe fields parameters s _ Hres).
  exact Hle.
Qed.

Lemma executor_map_blocks {B T A} (fn : T -> M B A) tasks :
  forall s,
    exists blocks,
      events_of (executor_map fn tasks s) = concat blocks /\
      Forall2 (fun task block => exists s', block = events_of (fn task s'))
              tasks blocks.
Proof.
  induction tasks as [|task rest IH]; intros s.
  - exists []. split; [reflexivity | constructor].
  - destruct (IH (state_of (fn task s))) as (blocks & Hev & Hall).
    exists (events_of (fn task s) :: blocks). split.
    + now rewrite events_executor_map_cons, Hev.
    + constructor; [now exists s | assumption].
Qed.

(** X8. Whatever the backend does, the events of the thread fan-out are
    the creation of the pool, the announcement and the dispatch, then one
    block of events per chunk of its partition, then at most a message.  In
    the block of a chunk there are at most 5 requests, each for that chunk
    with the fields and parameters given.  So the backend is asked only for
    chunks of the partition, and no more than 5 times the number of chunks
    in all. *)
Theorem thread_asks_for_its_chunks {B} (rd : Backend B) (platform : Platform)
        (universe : Universe) (fields : FieldSet) (parameters : Parameters)
        (nb_items_threshold : Z) (s : B) :
  let workers := Z.pos (thread_max_workers platform) in
  let size := Z.max (Py.ceil_div (Py.len universe) workers) nb_items_threshold in
  let chunks := __split_list_into_chunks universe size in
  let o := threadPoolExecutor_get_data rd platform universe fields parameters
                                       nb_items_threshold false s in
  (exists blocks tail,
      events_of o
      = [EvThreadPool workers; EvPrint (SendingBatches size (Py.len chunks));
         EvThreadMap chunks]
        ++ concat blocks ++ tail
      /\ Forall2 (fun chunk block =>
                    (nb_requests block <= 5)%nat /\
                    Forall (asks_only [chunk] fields parameters) block)
                 chunks blocks
      /\ nb_requests tail = 0%nat)
  /\ Forall (asks_only chunks fields parameters) (events_of o)
  /\ (nb_requests (events_of o) <= 5 * length chunks)%nat.
Proof.
  cbn zeta.
  destruct (thread_events rd platform universe fields parameters nb_items_threshold s)
    as (tail & Hev & Htail).
  assert (Htail0 : nb_requests tail = 0%nat)
    by (destruct Htail as [-> | [m ->]]; reflexivity).
  split; [|rewrite Hev; split].
  - destruct (executor_map_blocks
                (fun chunk => internal_get_data rd chunk fields parameters false)
                (__split_list_into_chunks
                   universe
                   (Z.max (Py.ceil_div (Py.len universe)
                                       (Z.pos (thread_max_workers platform)))
                          nb_items_threshold)) s) as (blocks & Hblocks & Hall).
    exists blocks, tail. rewrite Hev, Hblocks.
    split; [reflexivity|]. split; [|exact Htail0].
    eapply Forall2_impl; [|exact Hall].
    intros chunk block [s' ->]. split.
    + apply internal_plain_nb_requests.
    + apply internal_plain_asks_only. now left.
  - repeat (constructor; [exact I|]). apply Forall_app. split.
    + apply Forall_events_executor_map_in. intros chunk Hin s'.
      now apply internal_plain_asks_only.
    + destruct Htail as [-> | [m ->]]; now repeat constructor.
  - rewrite nb_requests_app. cbn [app]. unfold nb_requests at 1.
    cbn [filter is_request]. rewrite nb_requests_app.
    pose proof (count_executor_map_le
                  (fun chunk => internal_get_data rd chunk fields parameters false)
                  is_request 5
                  (fun chunk s' =>
                     internal_plain_nb_requests rd chunk fields parameters s')
                  (__split_list_into_chunks
                     universe
                     (Z.max (Py.ceil_div (Py.len universe)
                                         (Z.pos (thread_max_workers platform)))
                            nb_items_threshold)) s) as Hmap.
    fold (nb_requests
            (events_of
               (executor_map
                  (fun chunk => internal_get_data rd chunk fields parameters false)
                  (__split_list_into_chunks
                     universe
                     (Z.max (Py.ceil_div (Py.len universe)
                                         (Z.pos (thread_max_workers platform)))
                            nb_items_threshold)) s))) in Hmap.
    rewrite Htail0, Nat.add_0_r. exact Hmap.
Qed.

(** ** Fallbacks *)

Lemma process_fallback_run {B} (rd : Backend B) platform universe fields parameters
      nb_items_threshold nb_workers s :
  accepted platform nb_workers = true ->
  (Py.len (__split_list_into_chunks
             universe
             (Z.max (Py.ceil_div (Py.len universe) nb_workers) nb_items_threshold))
   <? 2) = true ->
  processPoolExecutor_get_data rd platform universe fields parameters
                               nb_items_threshold nb_workers s
  = (result_of (internal_get_data rd universe fields [] false s),
     state_of (internal_get_data rd universe fields [] false s),
     EvProcessPool nb_workers
     :: events_of (internal_get_data rd universe fields [] false s)).
Proof.
  intros Hacc Hfew. unfold processPoolExecutor_get_data.
  rewrite bind_run, ProcessPoolExecutor_accepted by assumption. cbn.
  now rewrite Hfew.
Qed.

Lemma hybrid_fallback_run {B} (rd : Backend B) platform universe fields parameters
      nb_items_threshold nb_workers s :
  accepted platform nb_workers = true ->
  (Py.len (__split_list_into_chunks
             universe
             (Z.max (Py.ceil_div (Py.len universe) nb_workers) nb_items_threshold))
   <? 2) = true ->
  hybridPoolExecutor_get_data rd platform universe fields parameters
                              nb_items_threshold nb_workers s
  = (result_of (threadPoolExecutor_get_data rd platform universe fields parameters
                                            nb_items_threshold false s),
     state_of (threadPoolExecutor_get_data rd platform universe fields parameters
                                           nb_items_threshold false s),
     EvProcessPool nb_workers
     :: events_of (threadPoolExecutor_get_data rd platform universe fields parameters
                                               nb_items_threshold false s)).
Proof.
  intros Hacc Hfew. unfold hybridPoolExecutor_get_data.
  rewrite bind_run, ProcessPoolExecutor_accepted by assumption. cbn.
  now rewrite Hfew.
Qed.

Lemma few_chunks (universe : Universe) nb_items_threshold nb_workers :
  0 < nb_workers ->
  nb_workers = 1 \/ Py.len universe <= nb_items_threshold ->
  (Py.len (__split_list_into_chunks
             universe
             (Z.max (Py.ceil_div (Py.len universe) nb_workers) nb_items_threshold))
   <? 2) = true.
Proof.
  intros Hw Hsmall. apply Z.ltb_lt.
  set (size := Z.max (Py.ceil_div (Py.len universe) nb_workers) nb_items_threshold).
  destruct (split_count_bounds universe size) as [_ Hhigh].
  destruct (ceil_div_spec (Py.len universe) nb_workers Hw) as [_ Hceil].
  assert (Hsize : Py.len universe <= Z.max 1 size) by (subst size; nia).
  unfold Py.len in *.
  set (count := length (__split_list_into_chunks universe size)) in *.
  assert (Hn : Z.of_nat (Z.to_nat (Z.max 1 size)) = Z.max 1 size) by lia.
  nia.
Qed.

(** X9. With a single worker, or with a universe no larger than
    [nb_items_threshold] (800 by default), the process and the hybrid
    fan-out never hand work to a pool of processes.  The hybrid fan-out is
    then the thread fan-out on the same request.  The process fan-out is the
    direct call on the universe and the fields with the default parameters:
    the [parameters] it was given are not passed on (line 132). *)
Theorem small_universe_never_dispatched {B} (rd : Backend B) (platform : Platform)
        (universe : Universe) (fields : FieldSet) (parameters : Parameters)
        (nb_items_threshold nb_workers : Z) (s : B) :
  accepted platform nb_workers = true ->
  nb_workers = 1 \/ Py.len universe <= nb_items_threshold ->
  let by_processes :=
    processPoolExecutor_get_data rd platform universe fields parameters
                                 nb_items_threshold nb_workers s in
  let hybrid :=
    hybridPoolExecutor_get_data rd platform universe fields parameters
                                nb_items_threshold nb_workers s in
  let direct_with_defaults := internal_get_data rd universe fields [] false s in
  let by_threads :=
    threadPoolExecutor_get_data rd platform universe fields parameters
                                nb_items_threshold false s in
  by_processes
  = (result_of direct_with_defaults, state_of direct_with_defaults,
     EvProcessPool nb_workers :: events_of direct_with_defaults)
  /\ hybrid
     = (result_of by_threads, state_of by_threads,
        EvProcessPool nb_workers :: events_of by_threads)
  /\ Forall quiet (events_of by_processes)
  /\ Forall quiet (events_of hybrid).
Proof.
  intros Hacc Hsmall. cbn zeta.
  assert (Hw : 0 < nb_workers).
  { unfold accepted in Hacc. apply andb_prop in Hacc. now apply Z.ltb_lt. }
  pose proof (few_chunks universe nb_items_threshold nb_workers Hw Hsmall) as Hfew.
  rewrite (process_fallback_run rd platform universe fields parameters
                                nb_items_threshold nb_workers s Hacc Hfew).
  rewrite (hybrid_fallback_run rd platform universe fields parameters
                               nb_items_threshold nb_workers s Hacc Hfew).
  repeat split.
  - constructor; [reflexivity | apply quiet_internal].
  - constructor; [reflexivity | apply quiet_thread].
Qed.

Lemma small_universe_never_dispatched_witness :
  let universe := Fake.instruments 37 in
  let parameters := [("SDate", "0")] in
  result_of (processPoolExecutor_get_data Fake.honouring_parameters Fake.posix
                                          universe ["A"] parameters
                                          NB_ITEMS_THRESHOLD CHILD_PROCESSES tt)
  = inr (Some (map (Fake.row_with ["A"] []) universe))
  /\
  result_of (hybridPoolExecutor_get_data Fake.honouring_parameters Fake.posix
                                         universe ["A"] parameters
                                         NB_ITEMS_THRESHOLD CHILD_PROCESSES tt)
  = inr (map (Fake.row_with ["A"] parameters) universe).
Proof.
  cbn zeta.
  destruct (small_universe_never_dispatched
              Fake.honouring_parameters Fake.posix (Fake.instruments 37) ["A"]
              [("SDate", "0")] NB_ITEMS_THRESHOLD CHILD_PROCESSES tt)
    as (Hprocess & Hhybrid & _).
  - reflexivity.
  - right. vm_compute. discriminate.
  - rewrite Hprocess, Hhybrid. split; vm_compute; reflexivity.
Defined.

(** X10. In its fallback the process fan-out calls [internal_get_data]
    with the universe and the fields alone: the [parameters] it was given
    have no effect on what it does. *)
Theorem process_fallback_ignores_parameters {B} (rd : Backend B) (platform : Platform)
        (universe : Universe) (fields : FieldSet) (parameters parameters' : Parameters)
        (nb_items_threshold nb_workers : Z) (s : B) :
  accepted platform nb_workers = true ->
  Py.len (__split_list_into_chunks
            universe
            (Z.max (Py.ceil_div (Py.len universe) nb_workers) nb_items_threshold))
  < 2 ->
  processPoolExecutor_get_data rd platform universe fields parameters
                               nb_items_threshold nb_workers s
  = processPoolExecutor_get_data rd platform universe fields parameters'
                                 nb_items_threshold nb_workers s
  /\
  In (EvGetData universe fields [] (fst (rd_get_data rd universe fields [] s)))
     (events_of (processPoolExecutor_get_data rd platform universe fields parameters
                                              nb_items_threshold nb_workers s)).
Proof.
  intros Hacc Hfew. apply Z.ltb_lt in Hfew.
  rewrite !(process_fallback_run rd platform universe fields _
                                 nb_items_threshold nb_workers s Hacc Hfew).
  split; [reflexivity|]. cbn [events_of snd]. right.
  destruct (loop_returns rd universe fields [] 5 pd_DataFrame s) as [table Hres].
  rewrite (internal_run_plain rd universe fields [] s _ Hres). cbn [events_of snd].
  right. rewrite loop_step.
  destruct (fst (rd_get_data rd universe fields [] s)); cbn; now left.
Qed.

Lemma process_fallback_ignores_parameters_witness :
  processPoolExecutor_get_data Fake.one_row_per_id Fake.posix ["A"; "B"] ["F"]
                               [("SDate", "0")] 5 2 tt
  = processPoolExecutor_get_data Fake.one_row_per_id Fake.posix ["A"; "B"] ["F"]
                                 [] 5 2 tt.
Proof.
  apply (process_fallback_ignores_parameters
           Fake.one_row_per_id Fake.posix ["A"; "B"] ["F"] [("SDate", "0")] []
           5 2 tt).
  - reflexivity.
  - vm_compute. reflexivity.
Defined.

(** ** Sessions in the process pools *)

Lemma for_result_in_nones (results : list (Exn + option DataFrame)) output_df :
  Forall (fun r => r = inr None) results ->
  for_result_in results output_df = (output_df, None).
Proof.
  intros Hall. revert output_df.
  induction Hall as [|r rest -> _ IH]; intros output_df; [reflexivity|].
  cbn. rewrite !app_nil_r. apply IH.
Qed.

Lemma thread_not_opened_run {B} (rd : Backend B) platform universe fields parameters
      nb_items_threshold s ex :
  fst (rd_open_session rd s) = Some ex ->
  threadPoolExecutor_get_data rd platform universe fields parameters
                              nb_items_threshold true s
  = (inl ex, snd (rd_open_session rd s),
     [EvSetParam "http.request-timeout" 120; EvOpenSession (Some ex)]).
Proof.
  intros Hopen.
  unfold threadPoolExecutor_get_data, when, __open_session.
  rewrite bind_run. rewrite bind_run. cbn. unfold open_session.
  destruct (rd_open_session rd s) as [r s1]. cbn in Hopen. subst r. reflexivity.
Qed.

(** X11. When no session can be opened, the process and the hybrid fan-out
    that dispatch their chunks still return normally, with the empty table:
    the failure of every child is swallowed, and nothing is asked of the
    backend. *)
Theorem failing_sessions_give_empty_table {B} (rd : Backend B) (platform : Platform)
        (universe : Universe) (fields : FieldSet) (parameters : Parameters)
        (nb_items_threshold nb_workers : Z) (s : B) :
  accepted platform nb_workers = true ->
  2 <= Py.len (__split_list_into_chunks
                 universe
                 (Z.max (Py.ceil_div (Py.len universe) nb_workers) nb_items_threshold)) ->
  (forall s', exists ex, fst (rd_open_session rd s') = Some ex) ->
  let by_processes :=
    processPoolExecutor_get_data rd platform universe fields parameters
                                 nb_items_threshold nb_workers s in
  let hybrid :=
    hybridPoolExecutor_get_data rd platform universe fields parameters
                                nb_items_threshold nb_workers s in
  result_of by_processes = inr (Some pd_DataFrame)
  /\ result_of hybrid = inr pd_DataFrame
  /\ nb_requests (events_of by_processes) = 0%nat
  /\ nb_requests (events_of hybrid) = 0%nat.
Proof.
  intros Hacc Hmany Hclosed. cbn zeta.
  assert (Hltb : (Py.len (__split_list_into_chunks
                            universe
                            (Z.max (Py.ceil_div (Py.len universe) nb_workers)
                                   nb_items_threshold)) <? 2) = false)
    by (apply Z.ltb_ge; exact Hmany).
  assert (Hinternal : forall chunk s',
             result_of (internal_get_data rd chunk fields parameters true s') = inr None
             /\ length (filter is_request
                          (events_of (internal_get_data rd chunk fields parameters
                                                        true s'))) = 0%nat).
  { intros chunk s'. destruct (Hclosed s') as [ex Hex].
    rewrite (internal_run_not_opened rd chunk fields parameters s' ex Hex).
    now split. }
  assert (Hthread : forall chunk s',
             (exists ex,
                 result_of (threadPoolExecutor_get_data
                              rd platform chunk fields parameters
                              nb_items_threshold true s') = inl ex)
             /\ length (filter is_request
                          (events_of (threadPoolExecutor_get_data
                                        rd platform chunk fields parameters
                                        nb_items_threshold true s'))) = 0%nat).
  { intros chunk s'. destruct (Hclosed s') as [ex Hex].
    rewrite (thread_not_opened_run rd platform chunk fields parameters
                                   nb_items_threshold s' ex Hex).
    split; [now exists ex | reflexivity]. }
  split; [|split; [|split]].
  - unfold processPoolExecutor_get_data.
    rewrite result_bind, ProcessPoolExecutor_accepted by assumption. cbn.
    rewrite Hltb. rewrite result_bind. cbn. rewrite result_bind. cbn.
    rewrite result_bind.
    destruct (executor_map_all
                (fun chunk => internal_get_data rd chunk fields parameters true)
                (fun r => r = inr None)
                (fun chunk s' => proj1 (Hinternal chunk s'))
                (__split_list_into_chunks
                   universe
                   (Z.max (Py.ceil_div (Py.len universe) nb_workers)
                          nb_items_threshold)) s)
      as (results & -> & Hall & _).
    rewrite (for_result_in_nones results pd_DataFrame Hall).
    now rewrite result_bind.
  - unfold hybridPoolExecutor_get_data.
    rewrite result_bind, ProcessPoolExecutor_accepted by assumption. cbn.
    rewrite Hltb. rewrite result_bind. cbn. rewrite result_bind. cbn.
    rewrite result_bind.
    destruct (executor_map_all
                (fun chunk => threadPoolExecutor_get_data
                                rd platform chunk fields parameters
                                nb_items_threshold true)
                (fun r => exists ex, r = inl ex)
                (fun chunk s' => proj1 (Hthread chunk s'))
                (__split_list_into_chunks
                   universe
                   (Z.max (Py.ceil_div (Py.len universe) nb_workers)
                          nb_items_threshold)) s)
      as (results & -> & Hall & Hlen).
    destruct Hall as [|r rest [ex ->] _]; cbn; now rewrite result_bind.
  - destruct (process_events rd platform universe fields parameters
                             nb_items_threshold nb_workers s Hacc Hltb)
      as (tail & -> & Htail).
    unfold nb_requests. rewrite !filter_app, !length_app.
    rewrite (count_executor_map
               (fun chunk => internal_get_data rd chunk fields parameters true)
               is_request 0
               (fun chunk s' => proj2 (Hinternal chunk s'))).
    destruct Htail as [-> | [m ->]]; reflexivity.
  - destruct (hybrid_events rd platform universe fields parameters
                            nb_items_threshold nb_workers s Hacc Hltb)
      as (tail & -> & Htail).
    unfold nb_requests. rewrite !filter_app, !length_app.
    rewrite (count_executor_map
               (fun chunk => threadPoolExecutor_get_data
                               rd platform chunk fields parameters
                               nb_items_threshold true)
               is_request 0
               (fun chunk s' => proj2 (Hthread chunk s'))).
    destruct Htail as [-> | [m ->]]; reflexivity.
Qed.

Lemma failing_sessions_give_empty_table_witness :
  result_of (hybridPoolExecutor_get_data Fake.no_session Fake.posix
                                         ["A"; "B"; "C"; "D"] ["F"] [] 1 2 tt)
  = inr pd_DataFrame.
Proof.
  apply (failing_sessions_give_empty_table
           Fake.no_session Fake.posix ["A"; "B"; "C"; "D"] ["F"] [] 1 2 tt).
  - reflexivity.
  - vm_compute. discriminate.
  - intros s'. now exists (RDError "no desktop application").
Defined.






(** ** The harness: the menu and [execute] *)

Lemma main_menu_invariant (P : Harness.Settings -> Prop) INSTRUMENTS_LIST :
  P (Harness.initial INSTRUMENTS_LIST) ->
  (forall option num st, P st -> P (Harness.menu_option INSTRUMENTS_LIST option num st)) ->
  forall inputs, P (Harness.main_menu INSTRUMENTS_LIST inputs).
Proof.
  intros Hinit Hstep inputs. unfold Harness.main_menu.
  revert Hinit. generalize (Harness.initial INSTRUMENTS_LIST).
  induction inputs as [|input rest IH]; intros st Hst; [exact Hst|].
  cbn [fold_left]. apply IH, Hstep, Hst.
Qed.



Lemma ProcessPoolExecutor_above_limit {B} platform nb_workers (s : B) :
  0 < nb_workers ->
  process_max_workers_limit platform < nb_workers ->
  ProcessPoolExecutor platform nb_workers s
  = (inl (process_max_workers_error platform), s, []).
Proof.
  intros Hpos Habove. unfold ProcessPoolExecutor.
  destruct (Z.leb_spec nb_workers 0); [lia|].
  destruct (Z.ltb_spec (process_max_workers_limit platform) nb_workers);
    [reflexivity | lia].
Qed.

Lemma execute_returns {B} (rd : Backend B) platform fields st s :
  uses_process_pool (Harness.algorithm st) = false
  \/ accepted platform (Harness.child_cnt st) = true ->
  exists value, result_of (Harness.execute rd platform fields st s) = inr value.
Proof.
  intros Hok. unfold Harness.execute.
  rewrite result_bind. cbn. rewrite result_bind.
  destruct (Harness.algorithm st).
  - destruct (internal_never_raises rd (Harness.universe st) fields [] false s)
      as [value ->].
    rewrite result_bind. cbn. now eexists.
  - rewrite result_bind.
    destruct (thread_returns rd platform (Harness.universe st) fields []
                             (Harness.batch_size st) s) as [table ->].
    cbn. rewrite result_bind. cbn. now eexists.
  - destruct Hok as [Hno | Hacc]; [discriminate|].
    destruct (process_returns rd platform (Harness.universe st) fields []
                              (Harness.batch_size st) (Harness.child_cnt st) s Hacc)
      as [value ->].
    rewrite result_bind. cbn. now eexists.
  - destruct Hok as [Hno | Hacc]; [discriminate|].
    rewrite result_bind.
    destruct (hybrid_returns rd platform (Harness.universe st) fields []
                             (Harness.batch_size st) (Harness.child_cnt st) s Hacc)
      as [table ->].
    cbn. rewrite result_bind. cbn. now eexists.
Qed.

(** X14. After anything typed in the menu, [execute] raises in one case
    only, whatever the backend does: an algorithm that uses a pool of
    processes is selected and the number of child processes is above the
    limit of the platform.  The exception is then the one of the constructor
    of the pool, raised before anything is asked of the backend.  In every
    other case [execute] returns. *)
Theorem execute_raises_only_above_the_limit {B} (rd : Backend B)
        (platform : Platform) (INSTRUMENTS_LIST : Universe)
        (inputs : list (Z * Z)) (fields : FieldSet) (s : B) :
  let st := Harness.main_menu INSTRUMENTS_LIST inputs in
  let o := Harness.execute rd platform fields st s in
  (uses_process_pool (Harness.algorithm st) = true /\
   process_max_workers_limit platform < Harness.child_cnt st ->
   o = (inl (process_max_workers_error platform), s,
        [EvPrint (Launching (Harness.algorithm st))]))
  /\
  (uses_process_pool (Harness.algorithm st) = false \/
   Harness.child_cnt st <= process_max_workers_limit platform ->
   exists value, result_of o = inr value).
Proof.
  cbn zeta.
  destruct (main_menu_keeps_positive INSTRUMENTS_LIST inputs) as [_ Hchild].
  set (st := Harness.main_menu INSTRUMENTS_LIST inputs) in *. clearbody st.
  split.
  - intros [Huses Habove]. unfold Harness.execute.
    rewrite bind_run. cbn. rewrite bind_run.
    destruct (Harness.algorithm st); try discriminate.
    + unfold processPoolExecutor_get_data.
      rewrite bind_run, ProcessPoolExecutor_above_limit by assumption.
      reflexivity.
    + rewrite bind_run. unfold hybridPoolExecutor_get_data.
      rewrite bind_run, ProcessPoolExecutor_above_limit by assumption.
      reflexivity.
  - intros Hok. apply execute_returns.
    destruct Hok as [Hno | Hbelow]; [now left | right].
    unfold accepted. apply andb_true_intro.
    split; [now apply Z.ltb_lt | now apply Z.leb_le].
Qed.

Lemma execute_raises_only_above_the_limit_witness :
  Harness.execute Fake.one_row_per_id Fake.windows ["F"]
                  (Harness.main_menu ["A"; "B"; "C"] [(1, 3); (4, 62)]) tt
  = (inl (ValueError "max_workers must be <= 61"), tt, [EvPrint (Launching PROCESS)])
  /\
  exists value,
    result_of (Harness.execute Fake.always_failing Fake.windows ["F"]
                               (Harness.main_menu ["A"; "B"; "C"]
                                                  [(1, 4); (3, 1); (4, 61)]) tt)
    = inr value.
Proof.
  split.
  - apply (execute_raises_only_above_the_limit
             Fake.one_row_per_id Fake.windows ["A"; "B"; "C"] [(1, 3); (4, 62)]
             ["F"] tt).
    split; [reflexivity | vm_compute; reflexivity].
  - apply (execute_raises_only_above_the_limit
             Fake.always_failing Fake.windows ["A"; "B"; "C"]
             [(1, 4); (3, 1); (4, 61)] ["F"] tt).
    right. vm_compute. discriminate.
Defined.



(** X16. Whatever is typed in the menu, the universe is the beginning of
    the list of instruments; and when that list is not empty, which [init]
    checks before the menu starts, the universe is never empty. *)
Theorem menu_universe_is_a_prefix (INSTRUMENTS_LIST : Universe)
        (inputs : list (Z * Z)) :
  let st := Harness.main_menu INSTRUMENTS_LIST inputs in
  (exists n, Harness.universe st = firstn n INSTRUMENTS_LIST) /\
  (INSTRUMENTS_LIST <> [] -> Harness.universe st <> []).
Proof.
  cbn zeta.
  apply (main_menu_invariant
           (fun st => (exists n, Harness.universe st = firstn n INSTRUMENTS_LIST) /\
                      (INSTRUMENTS_LIST <> [] -> Harness.universe st <> []))).
  - split; [now eexists|].
    cbn. destruct INSTRUMENTS_LIST; [congruence | discriminate].
  - intros option num st [Hprefix Hne]. unfold Harness.menu_option.
    destruct (option =? 1); [now split|].
    destruct (option =? 2).
    + destruct (Z.gtb_spec num 0) as [Hnum|Hnum]; [|now split].
      cbn [Harness.universe]. split; [now eexists|].
      destruct INSTRUMENTS_LIST; [congruence|].
      destruct (Z.to_nat num) eqn:E; [lia | discriminate].
    + destruct (_ && _); [destruct (num >? 0); now split|].
      destruct (_ && _); [destruct (num >? 0); now split|].
      now split.
Qed.

Lemma menu_universe_is_a_prefix_witness :
  Harness.universe (Harness.main_menu ["A"; "B"; "C"] [(2, 2); (2, 0); (2, -5)])
  <> [].
Proof.
  apply (menu_universe_is_a_prefix ["A"; "B"; "C"] [(2, 2); (2, 0); (2, -5)]).
  discriminate.
Defined.

(** ** The start of the harness *)


Lemma remove_newlines_id line :
  ~ In Startup.newline (list_ascii_of_string line) ->
  Startup.remove_newlines line = line.
Proof.
  induction line as [|c rest IH]; cbn; [reflexivity|]. intros Hnot.
  destruct (Ascii.eqb_spec c Startup.newline) as [E|E]; [tauto|].
  f_equal. apply IH. tauto.
Qed.

Lemma remove_newlines_app line line' :
  Startup.remove_newlines (line ++ line')%string
  = (Startup.remove_newlines line ++ Startup.remove_newlines line')%string.
Proof.
  induction line as [|c rest IH]; cbn; [reflexivity|].
  destruct (Ascii.eqb c Startup.newline); cbn; now rewrite IH.
Qed.



(** X18. Reading back a file written with one instrument per line gives
    the instruments: when no instrument is empty or contains a newline,
    [get_universe] on the lines made of each instrument followed by a
    newline returns exactly them, in order. *)
Theorem get_universe_reads_back (instruments : Universe) :
  Forall (fun instrument =>
            instrument <> EmptyString /\
            ~ In Startup.newline (list_ascii_of_string instrument))
         instruments ->
  let lines :=
    map (fun instrument => (instrument ++ String Startup.newline EmptyString)%string)
        instruments in
  fst (Startup.get_universe (Some lines) []) = instruments.
Proof.
  intros Hclean. cbn. rewrite map_map.
  induction Hclean as [|instrument rest [Hne Hnot] _ IH]; [reflexivity|].
  cbn [map filter]. rewrite remove_newlines_app, (remove_newlines_id _ Hnot).
  cbn. rewrite Ascii.eqb_refl. cbn.
  replace (instrument ++ "")%string with instrument
    by (clear; induction instrument as [|c r IHr]; cbn; [reflexivity | now rewrite <- IHr]).
  destruct instrument; [congruence|]. cbn [Startup.truthy]. now rewrite IH.
Qed.

Lemma get_universe_reads_back_witness :
  fst (Startup.get_universe
         (Some (map (fun instrument =>
                       (instrument ++ String Startup.newline EmptyString)%string)
                    ["IBM.N"; "VOD.L"]))
         [])
  = ["IBM.N"; "VOD.L"].
Proof.
  apply (get_universe_reads_back ["IBM.N"; "VOD.L"]).
  repeat constructor; try discriminate;
    cbn; intros H; repeat (destruct H as [H|H]; [discriminate H|]); exact H.
Defined.

(** X19. [init] succeeds exactly when the file gave at least one
    instrument.  The universe it leaves is then the first 7500 instruments,
    which is the universe the menu starts with, and is not empty; when it
    fails the universe is empty. *)
Theorem init_loads_default_universe (file : option (list string)) :
  let INSTRUMENTS_LIST := fst (fst (Startup.init file)) in
  let universe := snd (fst (Startup.init file)) in
  let ok := snd (Startup.init file) in
  (ok = true <-> INSTRUMENTS_LIST <> [])
  /\ (ok = true ->
      universe = Harness.universe (Harness.initial INSTRUMENTS_LIST) /\
      universe <> [])
  /\ (ok = false -> universe = [])
  /\ Py.len universe <= Harness.DEFAULT_UNIVERSE_SIZE
  /\ (file = None -> ok = false).
Proof.
  cbn zeta. unfold Startup.init, Startup.get_universe.
  set (L := match file with
            | Some lines => [] ++ filter Startup.truthy (map Startup.remove_newlines lines)
            | None => []
            end).
  assert (Hnone : file = None -> L = []) by (intros ->; reflexivity).
  clearbody L. destruct L as [|instrument rest].
  - cbn. repeat split; try discriminate; try congruence; intros; lia.
  - assert (Hloaded : (Py.len (instrument :: rest) >? 0) = true)
      by (unfold Py.len; cbn [length]; apply Z.gtb_lt; lia).
    rewrite Hloaded. cbn [fst snd].
    change (firstn (Z.to_nat Harness.DEFAULT_UNIVERSE_SIZE) (instrument :: rest))
      with (instrument
              :: firstn (Nat.pred (Z.to_nat Harness.DEFAULT_UNIVERSE_SIZE)) rest).
    assert (Hok : (Py.len (instrument
                             :: firstn (Nat.pred (Z.to_nat Harness.DEFAULT_UNIVERSE_SIZE))
                                       rest) >? 0) = true)
      by (unfold Py.len; cbn [length]; apply Z.gtb_lt; lia).
    rewrite Hok.
    split; [split; [discriminate | reflexivity]|].
    split; [intros _; split; [reflexivity | discriminate]|].
    split; [discriminate|].
    split.
    + unfold Py.len. cbn [length]. rewrite length_firstn.
      unfold Harness.DEFAULT_UNIVERSE_SIZE. lia.
    + intros Hfile. specialize (Hnone Hfile). discriminate.
Qed.

Lemma init_loads_default_universe_witness :
  snd (Startup.init None) = false.
Proof.
  apply (init_loads_default_universe None). reflexivity.
Defined.

(** ** The collecting loop, and the empty universe *)

(** X20. The loop that collects the results of the tasks puts the tables
    end to end in the order of the tasks and skips a [None].  When the
    result of a task is an exception, the tables of the tasks before it are
    kept, the results of the tasks after it are dropped, and that exception
    is the one caught. *)
Theorem collecting_loop_keeps_earlier_tables
        (before : list (option DataFrame)) (ex : Exn)
        (after : list (Exn + option DataFrame)) (output_df : DataFrame) :
  let tables :=
    concat (map (fun result => match result with Some table => table | None => [] end)
                before) in
  for_result_in (map inr before) output_df = (output_df ++ tables, None)
  /\
  for_result_in (map inr before ++ inl ex :: after) output_df
  = (output_df ++ tables, Some ex).
Proof.
  cbn zeta. revert output_df.
  induction before as [|result rest IH]; intros output_df.
  - cbn. now rewrite app_nil_r.
  - destruct (IH (output_df ++ match result with Some table => table | None => [] end))
      as [Hall Hraised].
    cbn [map app for_result_in].
    assert (Hconcat : pd_concat [Some output_df; result]
                      = inr (output_df
                               ++ match result with Some table => table | None => [] end)).
    { unfold pd_concat. cbn. now rewrite app_nil_r. }
    rewrite Hconcat, Hall, Hraised. cbn [concat]. now rewrite <- !app_assoc.
Qed.

Lemma split_nil_few (nb_chunks : Z) :
  (Py.len (__split_list_into_chunks (@nil string) nb_chunks) <? 2) = true.
Proof. now rewrite split_nil. Qed.

(** X21. On the empty universe the process fan-out falls back to the
    direct call and so still asks the backend, for an empty list of
    instruments, whereas the hybrid fan-out falls back to the thread
    fan-out, which has no chunk and asks nothing. *)
Theorem empty_universe_by_processes {B} (rd : Backend B) (platform : Platform)
        (fields : FieldSet) (parameters : Parameters)
        (nb_items_threshold nb_workers : Z) (s : B) :
  accepted platform nb_workers = true ->
  In (EvGetData [] fields [] (fst (rd_get_data rd [] fields [] s)))
     (events_of (processPoolExecutor_get_data rd platform [] fields parameters
                                              nb_items_threshold nb_workers s))
  /\
  hybridPoolExecutor_get_data rd platform [] fields parameters
                              nb_items_threshold nb_workers s
  = (inr pd_DataFrame, s,
     [EvProcessPool nb_workers;
      EvThreadPool (Z.pos (thread_max_workers platform));
      EvPrint (SendingBatches (Z.max 0 nb_items_threshold) 0);
      EvThreadMap []]).
Proof.
  intros Hacc. split.
  - rewrite (process_fallback_run rd platform [] fields parameters
                                  nb_items_threshold nb_workers s Hacc
                                  (split_nil_few _)).
    cbn [events_of snd]. right.
    destruct (loop_returns rd [] fields [] 5 pd_DataFrame s) as [table Hres].
    rewrite (internal_run_plain rd [] fields [] s _ Hres). cbn [events_of snd].
    right. rewrite loop_step.
    destruct (fst (rd_get_data rd [] fields [] s)); cbn; now left.
  - rewrite (hybrid_fallback_run rd platform [] fields parameters
                                 nb_items_threshold nb_workers s Hacc
                                 (split_nil_few _)).
    unfold threadPoolExecutor_get_data.
    rewrite bind_run. cbn. rewrite bind_run, ThreadPoolExecutor_run. cbn.
    rewrite split_nil.
    rewrite bind_run. cbn. rewrite bind_run. cbn. rewrite bind_run. cbn.
    rewrite bind_run. cbn. rewrite bind_run. cbn. reflexivity.
Qed.

Lemma empty_universe_by_processes_witness :
  In (EvGetData [] ["F"] [] (inl (RDError "timeout")))
     (events_of (processPoolExecutor_get_data Fake.always_failing Fake.posix []
                                              ["F"] [] 800 2 tt)).
Proof.
  apply (empty_universe_by_processes Fake.always_failing Fake.posix ["F"] [] 800 2 tt).
  reflexivity.
Defined.
